(** * log_analyzer: a shallow embedding of [src/log_analyzer.py]

    The script scans a log file for the lines matching a pattern, prints each
    of them with its bracketed timestamp converted to US/Pacific, and reports
    the average interval between consecutive matches.

    Layout of the development:
    - [Py]        values shared with the Python runtime: exceptions, results,
                  [datetime]/[timedelta] arithmetic, the library interface;
    - [Re]        the backtracking matcher used for the two regular
                  expressions that are written in the source;
    - [Analyzer]  the functions of the script, one definition per [def];
    - [RefLib]    a small executable instance of the library interface;
    - [Sample]    sample logs;
    - the properties of the matcher, then of the script. *)

From Stdlib Require Import ZArith Ascii String List Lia Bool.
From stdpp Require Import base option strings list gmap.

Local Open Scope string_scope.
Local Open Scope list_scope.
Local Open Scope Z_scope.

(** ** Runtime values *)

Module Py.

(** The exceptions the script can end with.  [SystemExit] carries the status
    that [optparse] passes to [sys.exit]. *)
Inductive exn : Type :=
  | IndexError
  | ValueError
  | TypeError
  | ZeroDivisionError
  | ReError
  | OSError
  | SystemExit (status : Z).

Inductive result (A : Type) : Type :=
  | Ok (a : A)
  | Raise (e : exn).
Arguments Ok {A} a.
Arguments Raise {A} e.

Definition rbind {A B} (r : result A) (f : A -> result B) : result B :=
  match r with
  | Ok a => f a
  | Raise e => Raise e
  end.

(** [timedelta]: a duration, in microseconds (the resolution of Python's
    [timedelta], whose days/seconds/microseconds fields are the normal form
    of this number). *)
Definition timedelta := Z.

(** An aware [datetime].  [wall] is the naive local reading (what the
    year..microsecond fields spell), in microseconds since
    0001-01-01T00:00:00; [utcoffset] is what [tzinfo.utcoffset] returns, in
    microseconds east of UTC.  The bounds of the type (years 1 to 9999) are
    not part of the model. *)
Record datetime : Type := mkdt { wall : Z; utcoffset : Z }.

(** The absolute instant: the reading of the same moment on a UTC clock. *)
Definition instant (d : datetime) : Z := wall d - utcoffset d.

(** [a - b] on aware datetimes, as [datetime.__sub__] computes it:
    [base = naive difference], then [base + otoff - myoff]. *)
Definition datetime_sub (a b : datetime) : timedelta :=
  let base := wall a - wall b in
  base + utcoffset b - utcoffset a.

Definition timedelta_add (a b : timedelta) : timedelta := a + b.

(** [_divide_and_round a b] of [datetime.py]: the quotient rounded to the
    nearest integer, ties to even. *)
Definition divide_and_round (a b : Z) : Z :=
  let q := a / b in
  let r := 2 * (a mod b) in
  let greater_than_half := if 0 <? b then b <? r else r <? b in
  if greater_than_half || ((r =? b) && (q mod 2 =? 1)) then q + 1 else q.

(** [td / n] for an [int] [n]. *)
Definition timedelta_truediv (td : timedelta) (n : Z) : result timedelta :=
  if n =? 0 then Raise ZeroDivisionError else Ok (divide_and_round td n).

(** A [tzinfo], seen from [astimezone]: the offset in force at a UTC
    instant. *)
Definition tzinfo := Z -> Z.

(** [d.astimezone(tz)]: [utc = d - d.utcoffset()], then [tz.fromutc(utc)]. *)
Definition astimezone (d : datetime) (tz : tzinfo) : datetime :=
  let utc := wall d - utcoffset d in
  {| wall := utc + tz utc; utcoffset := tz utc |}.

Definition utc : tzinfo := fun _ => 0.

(** What the script takes from [re], [datetime] and [pytz] without defining
    it: compilation and search of the user's pattern, parsing and printing
    of a [datetime] under a format string, and the offset table of a named
    zone.  [None] stands for the library's exception ([re.error] for
    [re_compile], [ValueError] for [strptime]). *)
Class Lib : Type := {
  re_pattern : Type;
  re_compile : string -> option re_pattern;
  re_search : re_pattern -> string -> bool;
  strptime : string -> string -> option datetime;
  strftime : datetime -> string -> string;
  timezone : string -> tzinfo
}.

(** The objects handed to [print]. *)
Inductive pyobj : Type :=
  | PStr (s : string)
  | PInt (n : Z)
  | PTimedelta (td : timedelta).

End Py.
Export Py.

(** ** The two regular expressions of the source *)

Module Re.

(** Both patterns are sequences of single-character items, some of them
    under a greedy [*] or [+]. *)
Inductive item : Type :=
  | One (p : ascii -> bool)
  | Star (p : ascii -> bool)
  | Plus (p : ascii -> bool).

(** [bol] is a leading [^]. *)
Record regex : Type := mkre { bol : bool; body : list item }.

Definition code (c : ascii) : N := N_of_ascii c.

(** Character classes, on the ASCII range. *)
Definition is_digit (c : ascii) : bool :=
  ((48 <=? code c) && (code c <=? 57))%N.

Definition is_alpha (c : ascii) : bool :=
  (((65 <=? code c) && (code c <=? 90)) || ((97 <=? code c) && (code c <=? 122)))%N.

Definition is_word (c : ascii) : bool :=
  is_alpha c || is_digit c || (code c =? 95)%N.

Definition is_space (c : ascii) : bool :=
  (((9 <=? code c) && (code c <=? 13)) || ((28 <=? code c) && (code c <=? 32)))%N.

Definition newline : ascii := ascii_of_nat 10.

(** [.] without DOTALL. *)
Definition dot (c : ascii) : bool := negb (Ascii.eqb c newline).

Definition lit (c : ascii) : item := One (Ascii.eqb c).

(** [match_items items s]: the length of the match of [items] at the start
    of [s], found the way a backtracking matcher finds it: a repetition
    first takes as many characters as it can and gives them back one at a
    time while the rest of the pattern fails. *)
Fixpoint match_items (items : list item) : string -> option nat :=
  match items with
  | [] => fun _ => Some 0%nat
  | One p :: r => fun s =>
      match s with
      | String c t => if p c then S <$> match_items r t else None
      | EmptyString => None
      end
  | Star p :: r =>
      fix star (s : string) : option nat :=
        match s with
        | String c t =>
            if p c then
              match star t with
              | Some n => Some (S n)
              | None => match_items r s
              end
            else match_items r s
        | EmptyString => match_items r s
        end
  | Plus p :: r =>
      fix plus (s : string) : option nat :=
        match s with
        | String c t =>
            if p c then
              match plus t with
              | Some n => Some (S n)
              | None => S <$> match_items r t
              end
            else None
        | EmptyString => None
        end
  end.

(** A match attempt at offset [pos] of the subject, [s] being what is left
    of the subject from there. *)
Definition match_at (r : regex) (pos : nat) (s : string) : option nat :=
  if bol r && negb (pos =? 0)%nat then None else match_items (body r) s.

(** The scan shared by [finditer], [sub] and [search]: [skip] counts the
    characters still covered by the last match. *)
Fixpoint finditer_from (r : regex) (pos skip : nat) (s : string) : list (nat * nat) :=
  match s with
  | EmptyString =>
      match skip, match_at r pos s with
      | O, Some n => [(pos, n)]
      | _, _ => []
      end
  | String c t =>
      match skip with
      | S k => finditer_from r (S pos) k t
      | O =>
          match match_at r pos s with
          | Some n => (pos, n) :: finditer_from r (S pos) (pred n) t
          | None => finditer_from r (S pos) 0 t
          end
      end
  end.

(** The spans [(start, length)] of the non-overlapping matches, left to
    right. *)
Definition finditer (r : regex) (s : string) : list (nat * nat) :=
  finditer_from r 0 0 s.

Fixpoint sub_from (r : regex) (repl : string) (pos skip : nat) (s : string) : string :=
  match s with
  | EmptyString =>
      match skip, match_at r pos s with
      | O, Some _ => repl
      | _, _ => EmptyString
      end
  | String c t =>
      match skip with
      | S k => sub_from r repl (S pos) k t
      | O =>
          match match_at r pos s with
          | Some (S n) => repl +:+ sub_from r repl (S pos) n t
          | Some O => repl +:+ String c (sub_from r repl (S pos) 0 t)
          | None => String c (sub_from r repl (S pos) 0 t)
          end
      end
  end.

(** [re.sub(r, repl, s)] for a replacement text without backslash (the
    replacement texts of the script are [strftime] outputs between
    literals). *)
Definition sub (r : regex) (repl : string) (s : string) : string :=
  sub_from r repl 0 0 s.

(** The pattern of [get_time]: the five characters [- - \[], then a group
    holding [.] under a greedy star, then [\]]. *)
Definition bracket_re : regex :=
  {| bol := false;
     body := [lit "-"; lit " "; lit "-"; lit " "; lit "["; Star dot; lit "]"] |}.

(** The second pattern of [process_line]:
    [^\w+\s\d+\s\d{2}:\d{2}:\d{2}]. *)
Definition prefix_re : regex :=
  {| bol := true;
     body := [Plus is_word; One is_space; Plus is_digit; One is_space;
              One is_digit; One is_digit; lit ":";
              One is_digit; One is_digit; lit ":";
              One is_digit; One is_digit] |}.

(** [bracket_re.findall(s)]: with one group in the pattern, the list of what
    the group matched, which is the match without its five leading
    characters and its closing bracket. *)
Definition findall_bracket (s : string) : list string :=
  map (fun '(start, n) => substring (start + 5) (n - 6) s) (finditer bracket_re s).

End Re.

(** ** The script *)

Module Analyzer.
Import Re.

(** The part of the file system the script looks at.  A regular file is the
    list of its lines, each with its terminator, as iterating over the open
    file yields them. *)
Inductive node : Type :=
  | File (lines : list string)
  | Directory.

(** What a run does to the outside: it opens files and prints. *)
Inductive event : Type :=
  | EvOpen (name : string)
  | EvPrint (args : list pyobj) (end_ : string).

(** A computation reads the file system, leaves a trace and ends with a
    value or an exception. *)
Definition M (A : Type) : Type := gmap string node -> list event * result A.

Definition ret {A} (a : A) : M A := fun _ => ([], Ok a).

Definition bind {A B} (m : M A) (f : A -> M B) : M B :=
  fun fs =>
    match m fs with
    | (tr, Ok a) => let '(tr', r) := f a fs in (tr ++ tr', r)
    | (tr, Raise e) => (tr, Raise e)
    end.

Definition lift {A} (r : result A) : M A := fun _ => ([], r).

Definition emit (e : event) : M unit := fun _ => ([e], Ok tt).

#[global] Instance M_ret : MRet M := @ret.
#[global] Instance M_bind : MBind M := fun A B f m => bind m f.

Definition nl : string := String newline "".

(** [print] of the objects [args], with the keyword argument [end]. *)
Definition print (args : list pyobj) (end_ : string) : M unit :=
  emit (EvPrint args end_).

(** [os.path.exists(name)] *)
Definition os_path_exists (name : string) : M bool :=
  fun fs => ([], Ok (bool_decide (is_Some (fs !! name)))).

(** [open(name)]: the lines the file object will yield. *)
Definition open (name : string) : M (list string) :=
  fun fs =>
    match fs !! name with
    | Some (File lines) => ([EvOpen name], Ok lines)
    | Some Directory => ([], Raise OSError)
    | None => ([], Raise OSError)
    end.

Section WithLib.
Context {L : Lib}.

(** *** [grep_file]

    A generator function: the call builds a generator object and runs
    nothing of the body; the body runs on [next], up to the next [yield]. *)
Inductive generator : Type :=
  | GenCreated (name pattern : string)
  | GenSuspended (patexp : re_pattern) (f : list string)
  | GenClosed.

Definition grep_file (name pattern : string) : M generator :=
  ret (GenCreated name pattern).

(** [for line in f: if patexp.search(line): yield line], from the lines [f]
    not read yet to the next [yield]. *)
Fixpoint scan (patexp : re_pattern) (f : list string) : option (string * list string) :=
  match f with
  | [] => None
  | line :: f' =>
      if re_search patexp line then Some (line, f') else scan patexp f'
  end.

Definition resume (patexp : re_pattern) (f : list string) : option string * generator :=
  match scan patexp f with
  | Some (line, f') => (Some line, GenSuspended patexp f')
  | None => (None, GenClosed)
  end.

(** [next(g)]: [Some line] for a yielded line, [None] for [StopIteration]. *)
Definition next (g : generator) : M (option string * generator) :=
  match g with
  | GenCreated name pattern =>
      patexp ← lift (from_option Ok (Raise ReError) (re_compile pattern));
      f ← open name;
      ret (resume patexp f)
  | GenSuspended patexp f => ret (resume patexp f)
  | GenClosed => ret (None, GenClosed)
  end.

(** [for l in g: body], the loop state passed along.  [for_lines] is the
    loop from a generator suspended in its own [for]. *)
Fixpoint for_lines {S} (patexp : re_pattern) (f : list string)
    (body : string -> S -> M S) (s : S) : M S :=
  match f with
  | [] => ret s
  | line :: f' =>
      if re_search patexp line
      then s' ← body line s; for_lines patexp f' body s'
      else for_lines patexp f' body s
  end.

Definition for_in {S} (g : generator) (body : string -> S -> M S) (s : S) : M S :=
  match g with
  | GenCreated name pattern =>
      patexp ← lift (from_option Ok (Raise ReError) (re_compile pattern));
      f ← open name;
      for_lines patexp f body s
  | GenSuspended patexp f => for_lines patexp f body s
  | GenClosed => ret s
  end.

(** *** [get_time] *)
Definition get_time (line : string) : result datetime :=
  let time_log := findall_bracket line in
  match time_log with
  | [] => Raise IndexError
  | t0 :: _ =>
      match strptime t0 "%d/%b/%Y:%H:%M:%S %z" with
      | Some timestamp => Ok timestamp
      | None => Raise ValueError
      end
  end.

(** *** [get_average]

    [reduce(lambda a,b: a + b, lst) / len(lst)]; [reduce] without initial
    value raises [TypeError] on an empty list. *)
Definition get_average (lst : list timedelta) : result timedelta :=
  match lst with
  | [] => Raise TypeError
  | x :: xs =>
      timedelta_truediv (fold_left timedelta_add xs x) (Z.of_nat (length lst))
  end.

(** *** [process_line] *)
Definition process_line (line : string) : result string :=
  let fmt := "%d/%m/%Y:%H:%M:%S %z" in
  let fmt_start := "%b %d %H:%M:%S" in
  rbind (get_time line) (fun timeval =>
  let timeval := astimezone timeval (timezone "US/Pacific") in
  let line := sub bracket_re ("- - [" +:+ strftime timeval fmt +:+ "]") line in
  let line := sub prefix_re (strftime timeval fmt_start) line in
  Ok line).

(** *** [process_args]

    The two options as [optparse] found them on the command line;
    [parser.error] ends the process with status 2. *)
Record options : Type := mkopts { opt_name : option string; opt_pattern : option string }.

Definition process_args (o : options) : result (string * string) :=
  match opt_name o with
  | None => Raise (SystemExit 2)
  | Some name =>
      match opt_pattern o with
      | None => Raise (SystemExit 2)
      | Some pattern => Ok (name, pattern)
      end
  end.

(** *** [main] *)

(** [[a - b for b, a in zip(timeval[:-1], timeval[1:])]] *)
Definition diffs (timeval : list datetime) : list timedelta :=
  map (fun '(b, a) => datetime_sub a b) (zip (removelast timeval) (tail timeval)).

(** The body of the [for] loop, on the pair [(count, timeval)]. *)
Definition loop_body (l : string) (st : Z * list datetime) : M (Z * list datetime) :=
  let '(count, timeval) := st in
  t ← lift (get_time l);
  let timeval := timeval ++ [t] in
  line ← lift (process_line l);
  print [PStr line] "";;
  ret (count + 1, timeval).

(** The statements after the loop. *)
Definition report (pattern : string) (count : Z) (timeval : list datetime) : M Z :=
  if 0 <? count then
    let diff := diffs timeval in
    (if 1 <? count then
       average ← lift (get_average diff);
       print [PStr ("Counted word '" +:+ pattern +:+ "'"); PInt count;
              PStr (nl +:+ " times in"); PInt count; PStr "lines"] nl;;
       print [PStr ("Average time between logged lines" +:+ nl +:+ " with word:");
              PTimedelta average] nl
     else
       print [PStr "Found only one matching line"] nl);;
    ret 0
  else
    print [PStr ("Did not find the '" +:+ pattern +:+ "' you provided.")] nl;;
    ret (-1).

Definition main (o : options) : M Z :=
  '(name, pattern) ← lift (process_args o);
  let count := 0 in
  let timeval := [] in
  found ← os_path_exists name;
  if negb found then
    print [PStr "File does not exist"] nl;;
    print [PStr "Check the input provided again and enter a valid file"] nl;;
    ret (-1)
  else
    matching_lines ← grep_file name pattern;
    '(count, timeval) ← for_in matching_lines loop_body (count, timeval);
    report pattern count timeval.

(** [sys.exit(main(sys.argv))]: the status the process ends with; an
    uncaught exception ends it with status 1. *)
Definition exit_status (r : result Z) : Z :=
  match r with
  | Ok code => code mod 256
  | Raise (SystemExit status) => status mod 256
  | Raise _ => 1
  end.

End WithLib.
End Analyzer.

(** ** A reference instance of the library interface

    Enough of [re], [datetime] and [pytz] to run the script on concrete
    logs: patterns built from literal characters, [.], [|] and groups;
    timestamps in their canonical spelling; US/Pacific under the rules in
    force since 2007. *)

Module RefLib.
Import Re.

(** *** Patterns *)
Inductive rx : Type :=
  | Eps
  | Chr (p : ascii -> bool)
  | Cat (a b : rx)
  | Alt (a b : rx).

(** A group under construction: the alternatives closed by a [|] so far,
    and the sequence being read. *)
Record frame : Type := mkframe { alts : option rx; cur : rx }.

Definition close (f : frame) : rx :=
  match alts f with
  | Some a => Alt a (cur f)
  | None => cur f
  end.

Definition push_atom (f : frame) (a : rx) : frame :=
  {| alts := alts f; cur := Cat (cur f) a |}.

(** Characters with a meaning in [re] that this instance does not read. *)
Definition unread (c : ascii) : bool :=
  existsb (Ascii.eqb c) (list_ascii_of_string "\[]{}*+?^$").

Fixpoint parse (s : string) (f : frame) (stack : list frame) : option rx :=
  match s with
  | EmptyString =>
      match stack with
      | [] => Some (close f)
      | _ :: _ => None
      end
  | String c t =>
      if Ascii.eqb c "(" then parse t {| alts := None; cur := Eps |} (f :: stack)
      else if Ascii.eqb c ")" then
        match stack with
        | [] => None
        | parent :: stack' => parse t (push_atom parent (close f)) stack'
        end
      else if Ascii.eqb c "|" then parse t {| alts := Some (close f); cur := Eps |} stack
      else if Ascii.eqb c "." then parse t (push_atom f (Chr dot)) stack
      else if unread c then None
      else parse t (push_atom f (Chr (Ascii.eqb c))) stack
  end.

Definition compile (pattern : string) : option rx :=
  parse pattern {| alts := None; cur := Eps |} [].

Fixpoint accepts (r : rx) (s : string) (k : string -> bool) : bool :=
  match r with
  | Eps => k s
  | Chr p =>
      match s with
      | String c t => p c && k t
      | EmptyString => false
      end
  | Cat a b => accepts a s (fun s' => accepts b s' k)
  | Alt a b => accepts a s k || accepts b s k
  end.

Fixpoint search (r : rx) (s : string) : bool :=
  accepts r s (fun _ => true) ||
  match s with
  | String _ t => search r t
  | EmptyString => false
  end.

(** *** The calendar *)
Definition is_leap (y : Z) : bool :=
  (y mod 4 =? 0) && (negb (y mod 100 =? 0) || (y mod 400 =? 0)).

Definition days_before_year (y : Z) : Z :=
  let y := y - 1 in y * 365 + y / 4 - y / 100 + y / 400.

Definition days_in_month (y m : Z) : Z :=
  if (m =? 2) && is_leap y then 29
  else nth (Z.to_nat m) [0; 31; 28; 31; 30; 31; 30; 31; 31; 30; 31; 30; 31] 0.

Definition days_before_month (y m : Z) : Z :=
  nth (Z.to_nat m) [0; 0; 31; 59; 90; 120; 151; 181; 212; 243; 273; 304; 334] 0
  + (if (2 <? m) && is_leap y then 1 else 0).

Definition ymd2ord (y m d : Z) : Z :=
  days_before_year y + days_before_month y m + d.

(** The month of the [n]-th day (from 0) of year [y], searched upwards. *)
Fixpoint month_of (y n : Z) (m : Z) (fuel : nat) : Z * Z :=
  match fuel with
  | O => (m, n + 1)
  | S k =>
      if n <? days_in_month y m then (m, n + 1)
      else month_of y (n - days_in_month y m) (m + 1) k
  end.

Definition ord2ymd (n : Z) : Z * Z * Z :=
  let n := n - 1 in
  let n400 := n / 146097 in
  let n := n mod 146097 in
  let n100 := n / 36524 in
  let n := n mod 36524 in
  let n4 := n / 1461 in
  let n := n mod 1461 in
  let n1 := n / 365 in
  let n := n mod 365 in
  let year := n400 * 400 + 1 + n100 * 100 + n4 * 4 + n1 in
  if (n1 =? 4) || (n100 =? 4) then (year - 1, 12, 31)
  else let '(m, d) := month_of year n 1 11 in (year, m, d).

Definition us_per_second : Z := 1000000.
Definition us_per_day : Z := 86400 * us_per_second.

(** *** [strptime] *)
Definition digit_val (c : ascii) : option Z :=
  if is_digit c then Some (Z.of_N (code c) - 48) else None.

Fixpoint number (cs : list ascii) (acc : Z) : option Z :=
  match cs with
  | [] => Some acc
  | c :: cs' => d ← digit_val c; number cs' (10 * acc + d)
  end.

Definition lower (c : ascii) : ascii :=
  if ((65 <=? code c) && (code c <=? 90))%N then ascii_of_N (code c + 32) else c.

Definition month_names : list string :=
  ["jan"; "feb"; "mar"; "apr"; "may"; "jun"; "jul"; "aug"; "sep"; "oct"; "nov"; "dec"].

Fixpoint index_of (x : string) (l : list string) (i : Z) : option Z :=
  match l with
  | [] => None
  | y :: l' => if String.eqb x y then Some i else index_of x l' (i + 1)
  end.

Definition month_number (cs : list ascii) : option Z :=
  index_of (string_of_list_ascii (map lower cs)) month_names 1.

Definition sign_of (c : ascii) : option Z :=
  if Ascii.eqb c "+" then Some 1 else if Ascii.eqb c "-" then Some (-1) else None.

Definition clf_format : string := "%d/%b/%Y:%H:%M:%S %z".

(** [DD/Mon/YYYY:HH:MM:SS +ZZZZ] and nothing else; every field is checked
    for its range. *)
Definition strptime_clf (s : string) : option datetime :=
  match list_ascii_of_string s with
  | [d1; d2; s1; b1; b2; b3; s2; y1; y2; y3; y4; c1; h1; h2; c2; m1; m2; c3;
     e1; e2; sp; sg; z1; z2; z3; z4] =>
      if Ascii.eqb s1 "/" && Ascii.eqb s2 "/" && Ascii.eqb c1 ":" &&
         Ascii.eqb c2 ":" && Ascii.eqb c3 ":" && Ascii.eqb sp " "
      then
        day ← number [d1; d2] 0;
        month ← month_number [b1; b2; b3];
        year ← number [y1; y2; y3; y4] 0;
        hour ← number [h1; h2] 0;
        minute ← number [m1; m2] 0;
        second ← number [e1; e2] 0;
        sign ← sign_of sg;
        zh ← number [z1; z2] 0;
        zm ← number [z3; z4] 0;
        if (1 <=? year) && (1 <=? day) && (day <=? days_in_month year month) &&
           (hour <=? 23) && (minute <=? 59) && (second <=? 59) && (zm <=? 59) &&
           (zh <=? 23)
        then
          Some {| wall := ((ymd2ord year month day - 1) * 86400
                           + hour * 3600 + minute * 60 + second) * us_per_second;
                  utcoffset := sign * (zh * 3600 + zm * 60) * us_per_second |}
        else None
      else None
  | _ => None
  end.

Definition strptime (s format : string) : option datetime :=
  if String.eqb format clf_format then strptime_clf s else None.

(** *** [strftime] *)
Definition digit_char (n : Z) : ascii := ascii_of_N (Z.to_N (48 + n mod 10)).

Definition pad2 (n : Z) : string :=
  String (digit_char (n / 10)) (String (digit_char n) "").

Definition pad4 (n : Z) : string := pad2 (n / 100) +:+ pad2 n.

Definition capitalize (s : string) : string :=
  match s with
  | String c t => String (ascii_of_N (code c - 32)) t
  | EmptyString => EmptyString
  end.

Definition directive (d : datetime) (c : ascii) : string :=
  let days := wall d / us_per_day in
  let secs := (wall d mod us_per_day) / us_per_second in
  let '(year, month, day) := ord2ymd (days + 1) in
  if Ascii.eqb c "d" then pad2 day
  else if Ascii.eqb c "m" then pad2 month
  else if Ascii.eqb c "Y" then pad4 year
  else if Ascii.eqb c "H" then pad2 (secs / 3600)
  else if Ascii.eqb c "M" then pad2 (secs / 60 mod 60)
  else if Ascii.eqb c "S" then pad2 (secs mod 60)
  else if Ascii.eqb c "b" then capitalize (nth (Z.to_nat (month - 1)) month_names "")
  else if Ascii.eqb c "z" then
    let off := utcoffset d / us_per_second in
    (if off <? 0 then "-" else "+") +:+ pad2 (Z.abs off / 3600) +:+ pad2 (Z.abs off / 60 mod 60)
  else String "%" (String c "").

Fixpoint strftime (d : datetime) (format : string) : string :=
  match format with
  | String "%" (String c t) => directive d c +:+ strftime d t
  | String c t => String c (strftime d t)
  | EmptyString => EmptyString
  end.

(** *** US/Pacific *)
Definition first_sunday_from (ord : Z) : Z := ord + (7 - ord mod 7) mod 7.

Definition us_pacific : tzinfo := fun u =>
  let '(year, _, _) := ord2ymd (u / us_per_day + 1) in
  let start := (first_sunday_from (ymd2ord year 3 1) + 7 - 1) * us_per_day
               + 10 * 3600 * us_per_second in
  let stop := (first_sunday_from (ymd2ord year 11 1) - 1) * us_per_day
              + 9 * 3600 * us_per_second in
  if (start <=? u) && (u <? stop)
  then -7 * 3600 * us_per_second
  else -8 * 3600 * us_per_second.

Definition timezone (name : string) : tzinfo :=
  if String.eqb name "US/Pacific" then us_pacific else utc.

#[global] Instance lib : Lib := {|
  re_pattern := rx;
  re_compile := compile;
  re_search := search;
  Py.strptime := strptime;
  Py.strftime := strftime;
  Py.timezone := timezone
|}.

End RefLib.

(** ** Notions used to state the properties *)

Import Re Analyzer.

(** [f] on every element, left to right, up to the first exception. *)
Fixpoint map_result {A B} (f : A -> result B) (l : list A) : result (list B) :=
  match l with
  | [] => Ok []
  | x :: l' => rbind (f x) (fun y => rbind (map_result f l') (fun ys => Ok (y :: ys)))
  end.

(** The lines of a file that a compiled pattern selects, in file order. *)
Definition matching_lines {L : Lib} (patexp : re_pattern) (lines : list string) : list string :=
  List.filter (re_search patexp) lines.

(** The trace of printing each line as the loop does. *)
Definition echo (l : string) : event := EvPrint [PStr l] "".

(** The interval between the timestamp of rank [i] and the one before it,
    as a difference of instants, and the sum of these intervals for
    [i = 1 .. N-1]: the words of the specification. *)
Definition delta (ts : list datetime) (i : nat) : Z :=
  instant (nth i ts (mkdt 0 0)) - instant (nth (i - 1) ts (mkdt 0 0)).

Definition delta_sum (ts : list datetime) : Z :=
  fold_right Z.add 0 (map (delta ts) (seq 1 (length ts - 1))).

(** The two summary lines of a run with more than one match. *)
Definition summary (pattern : string) (count : Z) (average : timedelta) : list event :=
  [EvPrint [PStr ("Counted word '" +:+ pattern +:+ "'"); PInt count;
            PStr (nl +:+ " times in"); PInt count; PStr "lines"] nl;
   EvPrint [PStr ("Average time between logged lines" +:+ nl +:+ " with word:");
            PTimedelta average] nl].

(** No average among the objects printed by a trace. *)
Definition prints_no_average (tr : list event) : Prop :=
  forall args end_ td, In (EvPrint args end_) tr -> ~ In (PTimedelta td) args.

(** No file opened by a trace. *)
Definition opens_nothing (tr : list event) : Prop :=
  forall name, ~ In (EvOpen name) tr.

Definition newline_free (s : string) : Prop :=
  ~ In newline (list_ascii_of_string s).

(** [line] holds the bracketed pattern at the end of [pre], with [content]
    between the brackets. *)
Definition occurrence (line pre content post : string) : Prop :=
  line = pre +:+ "- - [" +:+ content +:+ "]" +:+ post /\ newline_free content.

Definition contains_bracket (line : string) : Prop :=
  exists pre content post, occurrence line pre content post.

(** The occurrence found first by a scan from the left: none starts
    before it, and none starting at the same place reaches further. *)
Definition first_occurrence (line pre content post : string) : Prop :=
  occurrence line pre content post /\
  forall pre' content' post',
    occurrence line pre' content' post' ->
    (String.length pre <= String.length pre')%nat /\
    (String.length pre' = String.length pre ->
     (String.length content' <= String.length content)%nat).

(** What [get_time] makes of the text between the brackets. *)
Definition parse_timestamp {L : Lib} (content : string) : result datetime :=
  match strptime content "%d/%b/%Y:%H:%M:%S %z" with
  | Some t => Ok t
  | None => Raise ValueError
  end.

(** One pass over the line in which both patterns are tried on the text of
    the line itself: at each offset the prefix pattern, then the bracket
    pattern; what neither matches is copied. *)
Fixpoint rewrite_from (ra rb : string) (pos skip : nat) (s : string) : string :=
  match s with
  | EmptyString => EmptyString
  | String c t =>
      match skip with
      | S k => rewrite_from ra rb (S pos) k t
      | O =>
          match match_at prefix_re pos s, match_at bracket_re pos s with
          | Some (S n), _ => rb +:+ rewrite_from ra rb (S pos) n t
          | _, Some (S n) => ra +:+ rewrite_from ra rb (S pos) n t
          | _, _ => String c (rewrite_from ra rb (S pos) 0 t)
          end
      end
  end.

Definition rewrite_on_original (ra rb : string) (line : string) : string :=
  rewrite_from ra rb 0 0 line.

(** The replacement texts of [process_line] for a timestamp. *)
Definition bracket_text {L : Lib} (t : datetime) : string :=
  "- - [" +:+ strftime (astimezone t (timezone "US/Pacific")) "%d/%m/%Y:%H:%M:%S %z" +:+ "]".

Definition prefix_text {L : Lib} (t : datetime) : string :=
  strftime (astimezone t (timezone "US/Pacific")) "%b %d %H:%M:%S".

(** ** Sample inputs *)

Module Sample.

Definition line_a : string := "A - - [01/Jan/2020:00:00:00 +0000] foo" +:+ nl.
Definition line_b : string := "B - - [01/Jan/2020:00:00:10 +0000] bar" +:+ nl.

(** A line in syslog style, stamped in another zone. *)
Definition line_c : string :=
  "Jul 04 11:50:25 host - - [04/Jul/2021:11:50:25 +0200] baz" +:+ nl.

(** A line without timestamp. *)
Definition line_d : string := "GET /index.html" +:+ nl.

Definition access_log : gmap string node :=
  {[ "access.log" := File [line_a; line_b; line_c] ]}.


Definition options_for (name pattern : string) : options :=
  {| opt_name := Some name; opt_pattern := Some pattern |}.

End Sample.

(** ** Notions used in the proofs about the matcher *)

(** [strip p s]: what follows [p] at the start of [s]. *)
Fixpoint strip (p s : string) : option string :=
  match p with
  | EmptyString => Some s
  | String c p' =>
      match s with
      | String c' s' => if Ascii.eqb c c' then strip p' s' else None
      | EmptyString => None
      end
  end.

(** What follows the opening bracket in the pattern. *)
Definition tail_items : list item := [Star dot; lit "]"].

(** [s] has a closing bracket at offset [k] and no newline before it. *)
Fixpoint closes (s : string) (k : nat) : Prop :=
  match s with
  | EmptyString => False
  | String c t =>
      match k with
      | O => c = "]"%char
      | S k' => c <> newline /\ closes t k'
      end
  end.






(** ** Notions used for the other properties of the script *)





Definition is_print (e : event) : Prop :=
  match e with
  | EvPrint _ _ => True
  | EvOpen _ => False
  end.

Definition only_prints (tr : list event) : Prop := Forall is_print tr.

(** [for l in ls: body] over a list of lines. *)
Fixpoint for_each {S} (ls : list string) (body : string -> S -> M S) (s : S) : M S :=
  match ls with
  | [] => ret s
  | l :: ls' => s' ← body l s; for_each ls' body s'
  end.

(** [next] called on a generator until it signals [StopIteration], [n]
    times at most; the lines it yielded. *)
Fixpoint drain {L : Lib} (n : nat) (g : generator) : M (list string) :=
  match n with
  | O => ret []
  | S n' =>
      x ← next g;
      match x.1 with
      | None => ret []
      | Some line => rest ← drain n' x.2; ret (line :: rest)
      end
  end.

(** The sum of a list of durations. *)
Definition total (lst : list timedelta) : Z := fold_right Z.add 0 lst.

Module Sample2.

(** A path that names a directory. *)
Definition with_directory : gmap string node := {[ "logs" := Directory ]}.


(** The sample log with lines in between that the pattern does not select. *)
Definition padded_log : gmap string node :=
  {[ "access.log" := File [Sample.line_d; Sample.line_a; Sample.line_b;
                           Sample.line_d; Sample.line_c] ]}.

End Sample2.

(** ** Properties of the matcher *)

Section Matching.

#[local] Arguments String.append !s1 s2 : simpl nomatch.

(** *** Strings *)

Lemma append_assoc_s (a b c : string) : (a +:+ b) +:+ c = a +:+ (b +:+ c).
Proof. induction a as [|x a IH]; simpl; [done|]. by rewrite IH. Qed.

Lemma append_nil_r_s (a : string) : a +:+ "" = a.
Proof. induction a as [|x a IH]; simpl; [done|]. by rewrite IH. Qed.

Lemma length_append_s (a b : string) :
  String.length (a +:+ b) = (String.length a + String.length b)%nat.
Proof. induction a as [|x a IH]; simpl; [done|]. by rewrite IH. Qed.

(** Two ways of cutting the same string: the longer head extends the
    shorter one. *)
Lemma append_split (a b a' b' : string) :
  a +:+ b = a' +:+ b' ->
  (String.length a' <= String.length a)%nat ->
  exists m, a = a' +:+ m /\ b' = m +:+ b.
Proof.
  revert a. induction a' as [|x a' IH]; intros a H Hlen.
  - exists a. by simpl in *.
  - destruct a as [|y a]; [simpl in Hlen; lia|].
    simpl in H. injection H as -> H.
    destruct (IH a H) as (m & -> & ->); [simpl in Hlen; lia|].
    by exists m.
Qed.

Lemma substring_append (a b c : string) :
  substring (String.length a) (String.length b) (a +:+ b +:+ c) = b.
Proof.
  induction a as [|x a IH]; simpl; [|done].
  clear. revert c. induction b as [|y b IH]; intros c; simpl.
  - by destruct c.
  - by rewrite IH.
Qed.

Lemma newline_free_cons c s :
  newline_free (String c s) <-> c <> newline /\ newline_free s.
Proof. unfold newline_free. simpl. intuition congruence. Qed.

Lemma dot_true c : dot c = true <-> c <> newline.
Proof.
  unfold dot. destruct (Ascii.eqb_spec c newline); simpl; intuition congruence.
Qed.

(** *** Literal prefixes *)

Lemma strip_spec p s rest : strip p s = Some rest <-> s = p +:+ rest.
Proof.
  revert s. induction p as [|c p IH]; intros s; simpl.
  - split; congruence.
  - destruct s as [|c' s]; [split; discriminate|].
    destruct (Ascii.eqb_spec c c') as [->|Hne].
    + rewrite IH. split; congruence.
    + split; [discriminate|]. intros [= -> _]. done.
Qed.

Lemma match_items_lits p r s :
  match_items (map lit (list_ascii_of_string p) ++ r) s =
  match strip p s with
  | Some rest => (fun n => String.length p + n)%nat <$> match_items r rest
  | None => None
  end.
Proof.
  revert s. induction p as [|c p IH]; intros s; simpl.
  - by destruct (match_items r s).
  - destruct s as [|c' s]; [done|].
    destruct (Ascii.eqb c c'); [|done].
    rewrite IH. destruct (strip p s); [|done].
    by destruct (match_items r s0).
Qed.

(** *** The bracket pattern *)

Lemma closes_intro content post :
  newline_free content -> closes (content +:+ String "]" post) (String.length content).
Proof.
  induction content as [|c content IH]; simpl; [done|].
  intros [Hc Hfree]%newline_free_cons. auto.
Qed.

Lemma closes_elim s k :
  closes s k ->
  exists content post,
    s = content +:+ String "]" post /\ newline_free content /\ String.length content = k.
Proof.
  revert k. induction s as [|c s IH]; intros k; simpl; [done|].
  destruct k as [|k].
  - intros ->. exists "", s. split; [done|]. split; [|done]. intros [].
  - intros [Hc (content & post & -> & Hfree & <-)%IH].
    exists (String c content), post. repeat split.
    by apply newline_free_cons.
Qed.

(** The greedy star followed by the closing bracket stops at the last
    closing bracket that no newline separates from the start. *)
Lemma match_tail_spec s :
  match match_items tail_items s with
  | Some n =>
      exists k, n = S k /\ closes s k /\ forall k', closes s k' -> (k' <= k)%nat
  | None => forall k, ~ closes s k
  end.
Proof.
  induction s as [|c s IH]; [simpl; intros k []|].
  change (match_items tail_items (String c s)) with
    (if dot c then
       match match_items tail_items s with
       | Some n => Some (S n)
       | None => if Ascii.eqb "]" c then Some 1%nat else None
       end
     else if Ascii.eqb "]" c then Some 1%nat else None).
  destruct (dot c) eqn:Hdot.
  - apply dot_true in Hdot.
    destruct (match_items tail_items s) as [n|].
    + destruct IH as (k & -> & Hk & Hmax).
      exists (S k). split; [done|]. split; [done|].
      intros [|k']; [lia|]. intros [_ H%Hmax]. lia.
    + destruct (Ascii.eqb_spec "]" c) as [<-|Hne].
      * exists 0%nat. split; [done|]. split; [done|].
        intros [|k']; [lia|]. intros [_ H%IH]. done.
      * intros [|k']; simpl; [congruence|]. intros [_ H%IH]. done.
  - assert (c = newline) as ->.
    { unfold dot in Hdot. by destruct (Ascii.eqb_spec c newline). }
    simpl. intros [|k']; simpl; [done|]. intros [H _]. done.
Qed.

Lemma bracket_body : body bracket_re = map lit (list_ascii_of_string "- - [") ++ tail_items.
Proof. done. Qed.

Lemma match_bracket s :
  match_items (body bracket_re) s =
  match strip "- - [" s with
  | Some rest => (fun n => 5 + n)%nat <$> match_items tail_items rest
  | None => None
  end.
Proof. rewrite bracket_body. apply match_items_lits. Qed.

(** A match of the bracket pattern at the start of [s] is an occurrence
    there, the longest one. *)
Lemma match_bracket_some s n :
  match_items (body bracket_re) s = Some n ->
  exists content post,
    s = "- - [" +:+ content +:+ "]" +:+ post /\ newline_free content /\
    n = (String.length content + 6)%nat /\
    forall content' post',
      s = "- - [" +:+ content' +:+ "]" +:+ post' -> newline_free content' ->
      (String.length content' <= String.length content)%nat.
Proof.
  rewrite match_bracket. destruct (strip "- - [" s) as [rest|] eqn:Hs; [|done].
  apply strip_spec in Hs as ->.
  pose proof (match_tail_spec rest) as Hspec.
  destruct (match_items tail_items rest) as [m|]; [|done].
  destruct Hspec as (k & -> & Hk & Hmax). simpl. intros [= <-].
  destruct (closes_elim _ _ Hk) as (content & post & -> & Hfree & <-).
  exists content, post. repeat split; [done|lia|].
  intros content' post' Heq Hfree'.
  injection Heq as Heq. apply Hmax. rewrite Heq. by apply closes_intro.
Qed.

(** Where the pattern does not match, no occurrence starts. *)
Lemma match_bracket_none s content post :
  match_items (body bracket_re) s = None ->
  s = "- - [" +:+ content +:+ "]" +:+ post -> ~ newline_free content.
Proof.
  rewrite match_bracket. intros H -> Hfree.
  rewrite (proj2 (strip_spec _ _ _) eq_refl) in H.
  pose proof (match_tail_spec (content +:+ "]" +:+ post)) as Hspec.
  destruct (match_items tail_items _); [done|].
  by apply (Hspec (String.length content)), closes_intro.
Qed.

(** *** Scanning *)

(** The scan of a pattern without [^] either finds nothing, and then the
    pattern matches at no offset, or starts with the match at the least
    offset where the pattern matches. *)
Lemma finditer_first r s pos :
  bol r = false ->
  (finditer_from r pos 0 s = [] /\
   forall pre rest, s = pre +:+ rest -> match_items (body r) rest = None)
  \/
  (exists pre rest n tl,
     s = pre +:+ rest /\ match_items (body r) rest = Some n /\
     (forall p1 p2, pre = p1 +:+ p2 -> p2 <> "" ->
                    match_items (body r) (p2 +:+ rest) = None) /\
     finditer_from r pos 0 s = ((pos + String.length pre)%nat, n) :: tl).
Proof.
  intros Hbol. revert pos. induction s as [|c s IH]; intros pos.
  - simpl. unfold match_at. rewrite Hbol. simpl.
    destruct (match_items (body r) "") as [n|] eqn:Hm.
    + right. exists "", "", n, []. repeat split; [done| |by rewrite Nat.add_0_r].
      intros [|? ?] [|? ?]; done.
    + left. split; [done|]. by intros [|? ?] [|? ?].
  - simpl. unfold match_at. rewrite Hbol. simpl.
    destruct (match_items (body r) (String c s)) as [n|] eqn:Hm.
    + right. exists "", (String c s), n, (finditer_from r (S pos) (pred n) s).
      repeat split; [done| |by rewrite Nat.add_0_r].
      intros [|? ?] [|? ?]; done.
    + destruct (IH (S pos)) as [[Hnil Hno]|(pre & rest & n & tl & -> & Hn & Hbefore & Hit)].
      * left. split; [done|].
        intros [|c' pre] rest; simpl.
        -- by intros <-.
        -- intros [= <- ->]. by eapply Hno.
      * right. exists (String c pre), rest, n, tl. repeat split; [done| |].
        -- intros [|c' p1] p2; simpl.
           ++ intros <- _. done.
           ++ intros [= <- ->]. by apply (Hbefore p1).
        -- rewrite Hit. simpl. do 2 f_equal. lia.
Qed.

(** *** The first occurrence of the bracket pattern *)

Lemma occurrence_match line pre content post :
  occurrence line pre content post ->
  exists n, match_items (body bracket_re) ("- - [" +:+ content +:+ "]" +:+ post) = Some n.
Proof.
  intros [_ Hfree].
  destruct (match_items (body bracket_re) _) as [n|] eqn:Hm; [by exists n|].
  by destruct (match_bracket_none _ _ _ Hm eq_refl).
Qed.

(** [findall] either returns nothing, and the line holds no occurrence, or
    starts with the text between the brackets of the first occurrence. *)
Lemma findall_bracket_cases line :
  (findall_bracket line = [] /\ ~ contains_bracket line)
  \/
  (exists pre content post tl,
     first_occurrence line pre content post /\
     findall_bracket line = content :: tl).
Proof.
  unfold findall_bracket, finditer.
  destruct (finditer_first bracket_re line 0 eq_refl)
    as [[-> Hno]|(pre & rest & n & tl & Hline & Hn & Hbefore & ->)].
  - left. split; [done|].
    intros (pre & content & post & Hocc).
    destruct (occurrence_match _ _ _ _ Hocc) as [n Hn].
    destruct Hocc as [Hline _]. by rewrite (Hno _ _ Hline) in Hn.
  - right.
    destruct (match_bracket_some _ _ Hn) as (content & post & -> & Hfree & -> & Hmax).
    exists pre, content, post. eexists. split; [split; [done|]|].
    + intros pre' content' post' Hocc'.
      destruct (occurrence_match _ _ _ _ Hocc') as [n' Hn'].
      destruct Hocc' as [Hline' Hfree']. rewrite Hline in Hline'.
      assert (Hle : (String.length pre <= String.length pre')%nat).
      { destruct (Nat.le_gt_cases (String.length pre) (String.length pre'))
          as [|Hlt]; [done|].
        destruct (append_split _ _ _ _ Hline') as (m & -> & Hm); [lia|].
        rewrite Hm, (Hbefore pre' m eq_refl) in Hn'; [done|].
        intros ->. rewrite append_nil_r_s in Hlt. lia. }
      split; [done|]. intros Hlen.
      symmetry in Hline'.
      destruct (append_split _ _ _ _ Hline') as (m & -> & Hm); [lia|].
      rewrite length_append_s in Hlen.
      destruct m; [|simpl in Hlen; lia].
      apply (Hmax content' post'); [exact Hm|exact Hfree'].
    + simpl. f_equal.
      replace (String.length content + 6 - 6)%nat with (String.length content) by lia.
      rewrite Hline.
      change (pre +:+ "- - [" +:+ content +:+ "]" +:+ post)
        with (pre +:+ ("- - [" +:+ (content +:+ ("]" +:+ post)))).
      rewrite <- (append_assoc_s pre "- - [").
      replace (String.length pre + 5)%nat with (String.length (pre +:+ "- - ["))
        by (rewrite length_append_s; done).
      apply substring_append.
Qed.

(** The first occurrence is unique. *)
Lemma first_occurrence_unique line pre content post pre' content' post' :
  first_occurrence line pre content post ->
  first_occurrence line pre' content' post' ->
  pre' = pre /\ content' = content /\ post' = post.
Proof.
  intros [Hocc Hfirst] [Hocc' Hfirst'].
  destruct (Hfirst _ _ _ Hocc') as [Hle Hc].
  destruct (Hfirst' _ _ _ Hocc) as [Hle' Hc'].
  assert (Hlen : String.length pre' = String.length pre) by lia.
  specialize (Hc Hlen). specialize (Hc' (eq_sym Hlen)).
  destruct Hocc as [Hline _], Hocc' as [Hline' _]. rewrite Hline in Hline'.
  destruct (append_split _ _ _ _ Hline') as (m & -> & Hm); [lia|].
  rewrite length_append_s in Hlen. destruct m; [|simpl in Hlen; lia].
  rewrite append_nil_r_s. split; [done|].
  simpl in Hm. injection Hm as Hm.
  destruct (append_split _ _ _ _ Hm) as (m & -> & Hm'); [lia|].
  rewrite length_append_s in Hc. destruct m; [|simpl in Hc; lia].
  rewrite append_nil_r_s. split; [done|]. simpl in Hm'. by injection Hm'.
Qed.

Lemma contains_bracket_findall line :
  contains_bracket line <-> findall_bracket line <> [].
Proof.
  destruct (findall_bracket_cases line)
    as [[-> Hno]|(pre & content & post & tl & [Hocc _] & ->)].
  - split; [done|]. by intros [].
  - split; [done|]. intros _. by exists pre, content, post.
Qed.

(** *** Matching never looks past a character that no item accepts *)








(** *** The two substitutions of [process_line] *)




Lemma match_at_bracket pos s : match_at bracket_re pos s = match_items (body bracket_re) s.
Proof. done. Qed.



















End Matching.

(** ** Properties of the script *)

#[local] Arguments loop_body : simpl never.
#[local] Arguments report : simpl never.
#[local] Arguments get_time : simpl never.
#[local] Arguments process_line : simpl never.

Section Script.
Context {L : Lib}.

(** *** Running computations *)

Lemma run_bind {A B} (m : M A) (f : A -> M B) fs :
  (m ≫= f) fs =
  match m fs with
  | (tr, Ok a) => (tr ++ (f a fs).1, (f a fs).2)
  | (tr, Raise e) => (tr, Raise e)
  end.
Proof.
  unfold mbind, M_bind, bind. destruct (m fs) as [tr [a|e]]; [|done].
  by destruct (f a fs).
Qed.

Lemma run_lift_ok {A B} (a : A) (f : A -> M B) fs :
  (lift (Ok a) ≫= f) fs = f a fs.
Proof. rewrite run_bind. simpl. by destruct (f a fs). Qed.

Lemma run_lift_raise {A B} (e : exn) (f : A -> M B) fs :
  (lift (Raise e) ≫= f) fs = ([], Raise e).
Proof. by rewrite run_bind. Qed.

Lemma run_print {B} args end_ (f : unit -> M B) fs :
  (print args end_ ≫= f) fs = (EvPrint args end_ :: (f tt fs).1, (f tt fs).2).
Proof. by rewrite run_bind. Qed.

Lemma run_exists {B} name (f : bool -> M B) fs :
  (os_path_exists name ≫= f) fs = f (bool_decide (is_Some (fs !! name))) fs.
Proof. rewrite run_bind. simpl. by destruct (f _ fs). Qed.

Lemma run_open_file {B} name lines (f : list string -> M B) fs :
  fs !! name = Some (File lines) ->
  (open name ≫= f) fs = (EvOpen name :: (f lines fs).1, (f lines fs).2).
Proof. intros H. rewrite run_bind. unfold open. by rewrite H. Qed.

(** The whole of [main] in one equation, for options that name a file and
    a pattern. *)
Lemma main_unfold name pattern fs :
  main (mkopts (Some name) (Some pattern)) fs =
  if bool_decide (is_Some (fs !! name)) then
    match for_in (GenCreated name pattern) loop_body (0, []) fs with
    | (tr, Ok (count, timeval)) =>
        (tr ++ (report pattern count timeval fs).1, (report pattern count timeval fs).2)
    | (tr, Raise e) => (tr, Raise e)
    end
  else
    ([EvPrint [PStr "File does not exist"] nl;
      EvPrint [PStr "Check the input provided again and enter a valid file"] nl],
     Ok (-1)).
Proof.
  unfold main, process_args. cbn [opt_name opt_pattern].
  rewrite run_lift_ok, run_exists.
  destruct (bool_decide (is_Some (fs !! name))); cbn [negb].
  - unfold grep_file. rewrite run_bind. cbn [ret fst snd app]. rewrite run_bind.
    destruct (for_in _ _ _ fs) as [tr [[count timeval]|e]]; done.
  - by rewrite !run_print.
Qed.

(** The loop over a generator that has not started: compile, open, then
    the loop over the lines. *)
Lemma for_in_created {S} name pattern patexp lines (body : string -> S -> M S) s fs :
  fs !! name = Some (File lines) ->
  re_compile pattern = Some patexp ->
  for_in (GenCreated name pattern) body s fs =
  (EvOpen name :: (for_lines patexp lines body s fs).1,
   (for_lines patexp lines body s fs).2).
Proof.
  intros Hf Hp. unfold for_in. rewrite Hp. simpl from_option.
  rewrite run_lift_ok. by rewrite (run_open_file _ lines).
Qed.

(** A loop over lines none of which is selected runs no body. *)
Lemma for_lines_no_match {S} patexp lines (body : string -> S -> M S) s fs :
  matching_lines patexp lines = [] ->
  for_lines patexp lines body s fs = ([], Ok s).
Proof.
  unfold matching_lines. induction lines as [|l lines IH]; [done|].
  simpl. destruct (re_search patexp l); [done|]. auto.
Qed.

(** C8.  When the path names nothing in the file system, [main] prints the
    two lines of the diagnostic and returns -1, which the process reports
    as a non-zero status; the run opens no file, so no line is read. *)
Theorem missing_file_diagnostic (name pattern : string) (fs : gmap string node) :
  fs !! name = None ->
  main (mkopts (Some name) (Some pattern)) fs =
    ([EvPrint [PStr "File does not exist"] nl;
      EvPrint [PStr "Check the input provided again and enter a valid file"] nl],
     Ok (-1))
  /\ opens_nothing (main (mkopts (Some name) (Some pattern)) fs).1
  /\ exit_status (main (mkopts (Some name) (Some pattern)) fs).2 = 255.
Proof.
  intros Hnone. rewrite main_unfold, Hnone.
  rewrite bool_decide_eq_false_2 by (intros [x Hx]; discriminate).
  split; [done|]. split; [|done].
  intros n [H|[H|[]]]; discriminate.
Qed.

(** C2.  When the pattern compiles, the file is read and none of its lines
    is selected, [main] prints one message that quotes the pattern and
    returns -1 (a non-zero status); nothing printed is an average. *)
Theorem no_match_diagnostic (name pattern : string) (fs : gmap string node)
    (patexp : re_pattern) (lines : list string) :
  fs !! name = Some (File lines) ->
  re_compile pattern = Some patexp ->
  matching_lines patexp lines = [] ->
  main (mkopts (Some name) (Some pattern)) fs =
    ([EvOpen name;
      EvPrint [PStr ("Did not find the '" +:+ pattern +:+ "' you provided.")] nl],
     Ok (-1))
  /\ prints_no_average (main (mkopts (Some name) (Some pattern)) fs).1
  /\ exit_status (main (mkopts (Some name) (Some pattern)) fs).2 = 255
  /\ exit_status (main (mkopts (Some name) (Some pattern)) fs).2 <> 0.
Proof.
  intros Hf Hp Hm.
  assert (Hmain : main (mkopts (Some name) (Some pattern)) fs =
    ([EvOpen name;
      EvPrint [PStr ("Did not find the '" +:+ pattern +:+ "' you provided.")] nl],
     Ok (-1))).
  { rewrite main_unfold, Hf. rewrite bool_decide_eq_true_2 by eauto.
    rewrite (for_in_created name pattern patexp lines) by done.
    rewrite for_lines_no_match by done. by cbn. }
  rewrite Hmain. simpl. repeat split; try done.
  intros args e td [H|[H|[]]]; [discriminate|].
  injection H as <- _. intros [H|[]]. discriminate.
Qed.

(** *** The loop *)

Lemma get_time_raises line e :
  get_time line = Raise e -> e = IndexError \/ e = ValueError.
Proof.
  unfold get_time. destruct (findall_bracket line) as [|t0 ?]; [naive_solver|].
  destruct (strptime t0 _); naive_solver.
Qed.

(** Once the timestamp of a line is extracted, [process_line] cannot fail. *)
Lemma process_line_of_get_time line t :
  get_time line = Ok t ->
  process_line line =
  Ok (sub prefix_re (prefix_text t) (sub bracket_re (bracket_text t) line)).
Proof. intros H. unfold process_line. by rewrite H. Qed.

Lemma process_line_raises line e :
  process_line line = Raise e -> e = IndexError \/ e = ValueError.
Proof.
  unfold process_line. destruct (get_time line) eqn:H; [done|].
  simpl. intros [= <-]. by eapply get_time_raises.
Qed.

Lemma loop_body_run l count timeval fs :
  loop_body l (count, timeval) fs =
  match get_time l with
  | Ok t =>
      match process_line l with
      | Ok line => ([echo line], Ok (count + 1, timeval ++ [t]))
      | Raise e => ([], Raise e)
      end
  | Raise e => ([], Raise e)
  end.
Proof.
  unfold loop_body. destruct (get_time l) as [t|e].
  - rewrite run_lift_ok. destruct (process_line l) as [line|e].
    + by rewrite run_lift_ok.
    + by rewrite run_lift_raise.
  - by rewrite run_lift_raise.
Qed.


Lemma map_result_process_line ls ts :
  map_result get_time ls = Ok ts ->
  exists out, map_result process_line ls = Ok out /\ length out = length ts.
Proof.
  revert ts. induction ls as [|l ls IH]; intros ts; simpl.
  - intros [= <-]. by exists [].
  - destruct (get_time l) as [t|e] eqn:Ht; [|done]. simpl.
    destruct (map_result get_time ls) as [ts'|e]; [|done]. simpl.
    intros [= <-]. destruct (IH ts' eq_refl) as (out & -> & Hlen).
    rewrite (process_line_of_get_time l t Ht). simpl.
    eexists; split; [done|]. simpl. by rewrite Hlen.
Qed.

(** When every selected line yields a timestamp, the loop echoes the
    rewritten lines and ends with the count raised by their number and the
    timestamps appended in file order. *)
Lemma for_lines_ok patexp lines count timeval ts out fs :
  map_result get_time (matching_lines patexp lines) = Ok ts ->
  map_result process_line (matching_lines patexp lines) = Ok out ->
  for_lines patexp lines loop_body (count, timeval) fs =
  (map echo out, Ok (count + Z.of_nat (length ts), timeval ++ ts)).
Proof.
  unfold matching_lines.
  revert count timeval ts out. induction lines as [|l lines IH]; intros count timeval ts out.
  - simpl. intros [= <-] [= <-]. simpl. by rewrite Z.add_0_r, app_nil_r.
  - simpl. destruct (re_search patexp l); [|by apply IH].
    simpl. destruct (get_time l) as [t|e] eqn:Ht; [|done]. simpl.
    destruct (map_result get_time _) as [ts'|e] eqn:Hts; [|done]. simpl.
    intros [= <-].
    destruct (process_line l) as [o|e] eqn:Ho; [|done]. simpl.
    destruct (map_result process_line _) as [out'|e] eqn:Hout; [|done]. simpl.
    intros [= <-].
    rewrite run_bind, loop_body_run, Ht, Ho.
    rewrite (IH (count + 1) (timeval ++ [t]) ts' out') by done. simpl.
    do 3 f_equal; [lia|]. by rewrite <- app_assoc.
Qed.


(** The counter of the loop is the length of the list of timestamps. *)
Lemma for_lines_count patexp lines count timeval tr count' timeval' fs :
  for_lines patexp lines loop_body (count, timeval) fs = (tr, Ok (count', timeval')) ->
  count = Z.of_nat (length timeval) ->
  count' = Z.of_nat (length timeval').
Proof.
  revert count timeval tr. induction lines as [|l lines IH]; intros count timeval tr.
  - simpl. intros [= _ <- <-]. done.
  - simpl. destruct (re_search patexp l); [|by apply IH].
    rewrite run_bind, loop_body_run.
    destruct (get_time l) as [t|e]; [|done].
    destruct (process_line l) as [o|e]; [|done].
    destruct (for_lines _ _ _ _ fs) as [tr' r] eqn:Hrest. simpl.
    intros [= _ ->] Hc. eapply IH; [done|].
    rewrite length_app. simpl. lia.
Qed.

Lemma for_lines_raises patexp lines st tr e fs :
  for_lines patexp lines loop_body st fs = (tr, Raise e) ->
  e = IndexError \/ e = ValueError.
Proof.
  revert st tr. induction lines as [|l lines IH]; intros [count timeval] tr.
  - done.
  - simpl. destruct (re_search patexp l); [|by apply IH].
    rewrite run_bind, loop_body_run.
    destruct (get_time l) as [t|e'] eqn:Ht.
    + destruct (process_line l) as [o|e'] eqn:Ho.
      * destruct (for_lines _ _ _ _ fs) as [tr' r] eqn:Hrest. simpl.
        intros [= _ ->]. by eapply IH.
      * intros [= _ ->]. by eapply process_line_raises.
    + intros [= _ ->]. by eapply get_time_raises.
Qed.

(** The generator protocol: [for_lines] is [scan] up to the next [yield],
    the body, and the loop again. *)
Lemma for_lines_scan {S} patexp f (body : string -> S -> M S) s fs :
  for_lines patexp f body s fs =
  match scan patexp f with
  | Some (line, f') => (body line s ≫= for_lines patexp f' body) fs
  | None => ([], Ok s)
  end.
Proof.
  induction f as [|line f IH]; [done|].
  simpl. by destruct (re_search patexp line).
Qed.

(** [for l in g: body] is: [next(g)]; on [StopIteration] leave; otherwise
    run the body on the line and loop on the generator as [next] left it. *)
Lemma for_in_next {S} g (body : string -> S -> M S) s fs :
  for_in g body s fs =
  (next g ≫= fun x =>
     match x.1 with
     | Some line => body line s ≫= for_in x.2 body
     | None => ret s
     end) fs.
Proof.
  assert (Hres : forall patexp f,
    for_lines patexp f body s fs =
    match (resume patexp f).1 with
    | Some line => (body line s ≫= for_in (resume patexp f).2 body) fs
    | None => ([], Ok s)
    end).
  { intros patexp f. rewrite for_lines_scan. unfold resume.
    by destruct (scan patexp f) as [[line f']|]. }
  destruct g as [name pattern|patexp f|]; simpl.
  - rewrite !run_bind. simpl.
    destruct (re_compile pattern) as [patexp|]; [|done]. simpl.
    rewrite !run_bind. unfold open.
    destruct (fs !! name) as [[lines|]|]; try done. simpl.
    rewrite Hres. by destruct (resume patexp lines).1.
  - rewrite run_bind. simpl. rewrite Hres.
    destruct (resume patexp f).1 as [line|]; [|done].
    by destruct ((body line s ≫= for_in (resume patexp f).2 body) fs).
  - by rewrite run_bind.
Qed.

Lemma for_in_created_cases {S} name pattern (body : string -> S -> M S) s fs :
  for_in (GenCreated name pattern) body s fs =
  match re_compile pattern with
  | None => ([], Raise ReError)
  | Some patexp =>
      match fs !! name with
      | Some (File lines) =>
          (EvOpen name :: (for_lines patexp lines body s fs).1,
           (for_lines patexp lines body s fs).2)
      | _ => ([], Raise OSError)
      end
  end.
Proof.
  unfold for_in. destruct (re_compile pattern) as [patexp|]; simpl.
  - rewrite run_lift_ok, run_bind. unfold open.
    by destruct (fs !! name) as [[lines|]|].
  - by rewrite run_lift_raise.
Qed.


(** *** Intervals and their average *)

Lemma datetime_sub_instant a b : datetime_sub a b = instant a - instant b.
Proof. unfold datetime_sub, instant. lia. Qed.

Lemma diffs_cons t0 t1 ts :
  diffs (t0 :: t1 :: ts) = datetime_sub t1 t0 :: diffs (t1 :: ts).
Proof. done. Qed.

Lemma diffs_length ts : length (diffs ts) = (length ts - 1)%nat.
Proof.
  induction ts as [|t0 [|t1 ts] IH]; [done..|].
  rewrite diffs_cons. simpl length in *. lia.
Qed.

Lemma delta_shift t0 ts i :
  (1 <= i)%nat -> delta (t0 :: ts) (S i) = delta ts i.
Proof.
  intros Hi. unfold delta. destruct i as [|i]; [lia|].
  simpl. by rewrite Nat.sub_0_r.
Qed.

(** The list built by [zip] and the comprehension is the list of the
    intervals [t[i] - t[i-1]], [i] from 1 to [N-1], in that order. *)
Lemma diffs_delta ts :
  diffs ts = map (delta ts) (seq 1 (length ts - 1)).
Proof.
  induction ts as [|t0 [|t1 ts] IH]; [done..|].
  rewrite diffs_cons, IH. simpl length.
  replace (S (S (length ts)) - 1)%nat with (S (length ts)) by lia.
  replace (S (length ts) - 1)%nat with (length ts) by lia.
  rewrite <- cons_seq, <- (seq_shift (length ts) 1), map_cons, List.map_map.
  f_equal.
  - unfold delta. simpl. apply datetime_sub_instant.
  - apply map_ext_in. intros i Hi%in_seq. symmetry. apply delta_shift. lia.
Qed.

Lemma fold_left_timedelta_add xs x :
  fold_left timedelta_add xs x = x + fold_right Z.add 0 xs.
Proof.
  revert x. induction xs as [|y xs IH]; intros x; simpl.
  - lia.
  - rewrite IH. unfold timedelta_add. lia.
Qed.

Lemma get_average_cons x xs :
  get_average (x :: xs) =
  Ok (divide_and_round (fold_right Z.add 0 (x :: xs)) (Z.of_nat (length (x :: xs)))).
Proof.
  unfold get_average, timedelta_truediv.
  destruct (Z.eqb_spec (Z.of_nat (length (x :: xs))) 0) as [H|_].
  - simpl length in H. lia.
  - by rewrite fold_left_timedelta_add.
Qed.

(** With two timestamps or more the list of intervals is not empty and its
    average is the rounded quotient of [delta_sum] by [N - 1]. *)
Lemma get_average_diffs ts :
  (2 <= length ts)%nat ->
  get_average (diffs ts) =
  Ok (divide_and_round (delta_sum ts) (Z.of_nat (length ts) - 1)).
Proof.
  intros Hlen. pose proof (diffs_length ts) as Hd.
  destruct (diffs ts) as [|x xs] eqn:E; [simpl in Hd; lia|].
  rewrite get_average_cons, Hd, <- E, diffs_delta.
  unfold delta_sum. do 2 f_equal. lia.
Qed.



(** The statements after the loop never raise when the counter is the
    length of the list. *)
Lemma report_run pattern timeval fs :
  report pattern (Z.of_nat (length timeval)) timeval fs =
  match timeval with
  | [] =>
      ([EvPrint [PStr ("Did not find the '" +:+ pattern +:+ "' you provided.")] nl],
       Ok (-1))
  | [_] => ([EvPrint [PStr "Found only one matching line"] nl], Ok 0)
  | _ :: _ :: _ =>
      (summary pattern (Z.of_nat (length timeval))
         (divide_and_round (delta_sum timeval) (Z.of_nat (length timeval) - 1)),
       Ok 0)
  end.
Proof.
  unfold report. destruct timeval as [|t0 [|t1 ts]]; [done..|].
  rewrite get_average_diffs by (simpl; lia).
  destruct (Z.ltb_spec 0 (Z.of_nat (length (t0 :: t1 :: ts)))) as [_|H];
    [|simpl length in H; lia].
  destruct (Z.ltb_spec 1 (Z.of_nat (length (t0 :: t1 :: ts)))) as [_|H];
    [|simpl length in H; lia].
  by rewrite run_bind, run_lift_ok, !run_print.
Qed.

(** In a run over a readable file whose selected lines (two or more) all
    yield a timestamp, [main] echoes the rewritten lines, then prints the
    count and the average, and returns 0. *)
Lemma main_reports_average (name pattern : string)
    (fs : gmap string node) (patexp : re_pattern) (lines : list string)
    (ts : list datetime) :
  fs !! name = Some (File lines) ->
  re_compile pattern = Some patexp ->
  map_result get_time (matching_lines patexp lines) = Ok ts ->
  (2 <= length ts)%nat ->
  let count := Z.of_nat (length ts) in
  let average := divide_and_round (delta_sum ts) (count - 1) in
  exists out,
    map_result process_line (matching_lines patexp lines) = Ok out
    /\ for_in (GenCreated name pattern) loop_body (0, []) fs =
         (EvOpen name :: map echo out, Ok (count, ts))
    /\ main (mkopts (Some name) (Some pattern)) fs =
         (EvOpen name :: map echo out ++ summary pattern count average, Ok 0).
Proof.
  intros Hf Hp Hts Hlen count average.
  destruct (map_result_process_line _ _ Hts) as (out & Hout & _).
  exists out. split; [done|].
  assert (Hloop : for_in (GenCreated name pattern) loop_body (0, []) fs =
                  (EvOpen name :: map echo out, Ok (count, ts))).
  { rewrite (for_in_created name pattern patexp lines) by done.
    by rewrite (for_lines_ok _ _ _ _ ts out). }
  split; [done|].
  rewrite main_unfold, Hf, Hloop. rewrite bool_decide_eq_true_2 by eauto.
  unfold count. rewrite report_run.
  destruct ts as [|t0 [|t1 ts]]; [simpl in Hlen; lia..|]. done.
Qed.



(** *** What a run can raise *)

Lemma for_in_count name pattern tr count timeval fs :
  for_in (GenCreated name pattern) loop_body (0, []) fs = (tr, Ok (count, timeval)) ->
  count = Z.of_nat (length timeval).
Proof.
  rewrite for_in_created_cases.
  destruct (re_compile pattern) as [patexp|]; [|done].
  destruct (fs !! name) as [[lines|]|]; [|done..].
  destruct (for_lines _ _ _ _ fs) as [tr' r] eqn:E. simpl.
  intros [= _ ->]. by eapply for_lines_count.
Qed.

Lemma for_in_raises name pattern tr e fs :
  for_in (GenCreated name pattern) loop_body (0, []) fs = (tr, Raise e) ->
  e = ReError \/ e = OSError \/ e = IndexError \/ e = ValueError.
Proof.
  rewrite for_in_created_cases.
  destruct (re_compile pattern) as [patexp|]; [|intros [= _ <-]; tauto].
  destruct (fs !! name) as [[lines|]|]; [|intros [= _ <-]; tauto..].
  destruct (for_lines _ _ _ _ fs) as [tr' r] eqn:E. simpl.
  intros [= _ ->]. apply for_lines_raises in E. tauto.
Qed.

Lemma main_raises o fs e :
  (main o fs).2 = Raise e ->
  e = SystemExit 2 \/ e = ReError \/ e = OSError \/ e = IndexError \/ e = ValueError.
Proof.
  destruct o as [[name|] [pattern|]];
    try (unfold main, process_args; cbn [opt_name opt_pattern];
         rewrite run_lift_raise; intros [= <-]; tauto).
  rewrite main_unfold. case_bool_decide; [|done].
  destruct (for_in _ _ _ fs) as [tr [[count timeval]|e']] eqn:E.
  - apply for_in_count in E as ->. rewrite report_run.
    by destruct timeval as [|? [|? ?]].
  - simpl. intros [= ->]. apply for_in_raises in E. tauto.
Qed.

(** C10.  The loop of [main] leaves a counter equal to the number of
    collected timestamps; under the guard [count > 1] the list of intervals
    has [count - 1 >= 1] elements and [get_average] returns on it; no run of
    [main] ends in the [TypeError] of [reduce] on an empty list or in a
    division by zero. *)
Theorem get_average_guarded (o : options) (fs : gmap string node) :
  (forall name pattern tr count timeval,
     for_in (GenCreated name pattern) loop_body (0, []) fs = (tr, Ok (count, timeval)) ->
     count = Z.of_nat (length timeval))
  /\ (forall timeval : list datetime,
        1 < Z.of_nat (length timeval) ->
        length (diffs timeval) = (length timeval - 1)%nat
        /\ (1 <= length (diffs timeval))%nat
        /\ exists average, get_average (diffs timeval) = Ok average)
  /\ (main o fs).2 <> Raise TypeError
  /\ (main o fs).2 <> Raise ZeroDivisionError.
Proof.
  split; [|split; [|split]].
  - intros name pattern tr count timeval. apply for_in_count.
  - intros timeval Hc. pose proof (diffs_length timeval) as Hd.
    split; [done|]. split; [lia|].
    eexists. apply get_average_diffs. lia.
  - intros H%main_raises. intuition discriminate.
  - intros H%main_raises. intuition discriminate.
Qed.

(** *** Time zones *)



(** *** The line source *)

(** C7, as the script has it.  For a pattern that does not compile,
    creating the generator runs nothing and raises nothing; the error of
    [re.compile] is raised by the first [next], before the file is opened
    and before any line is produced; in [main] the run ends there with an
    empty trace. *)
Theorem invalid_pattern_raises_on_first_next (name pattern : string)
    (fs : gmap string node) :
  re_compile pattern = None ->
  grep_file name pattern fs = ([], Ok (GenCreated name pattern))
  /\ next (GenCreated name pattern) fs = ([], Raise ReError)
  /\ (is_Some (fs !! name) ->
      main (mkopts (Some name) (Some pattern)) fs = ([], Raise ReError)).
Proof.
  intros Hp. split; [done|]. split.
  - unfold next. rewrite Hp. simpl. by rewrite run_lift_raise.
  - intros Hsome. rewrite main_unfold, bool_decide_eq_true_2 by done.
    by rewrite for_in_created_cases, Hp.
Qed.

(** *** Extraction and rewriting *)

(** What [get_time] extracts.  In a line that holds the bracketed pattern,
    it parses one text and nothing else of the line: the text that follows
    the leftmost opening of an occurrence and runs to the last closing
    bracket that no newline separates from it (the star of the pattern is
    greedy).  There is exactly one such occurrence. *)
Lemma leftmost_longest_bracket_is_parsed (line : string) :
  contains_bracket line ->
  exists pre content post,
    first_occurrence line pre content post
    /\ head (findall_bracket line) = Some content
    /\ get_time line = parse_timestamp content
    /\ forall pre' content' post',
         first_occurrence line pre' content' post' ->
         pre' = pre /\ content' = content /\ post' = post.
Proof.
  intros Hc.
  destruct (findall_bracket_cases line)
    as [[_ Hno]|(pre & content & post & tl & Hfirst & Hall)]; [done|].
  exists pre, content, post. split; [done|]. split; [by rewrite Hall|]. split.
  - unfold get_time, parse_timestamp. by rewrite Hall.
  - intros pre' content' post' Hfirst'.
    by eapply first_occurrence_unique.
Qed.

(** C6.  In a line that does not hold the bracketed pattern, [findall]
    returns the empty list and [get_time] ends with the [IndexError] of
    indexing it; it returns no timestamp. *)
Theorem missing_bracket_raises_index_error (line : string) :
  ~ contains_bracket line ->
  findall_bracket line = []
  /\ get_time line = Raise IndexError
  /\ forall t, get_time line <> Ok t.
Proof.
  intros Hno.
  assert (Hall : findall_bracket line = []).
  { destruct (findall_bracket line) eqn:E; [done|].
    destruct Hno. apply contains_bracket_findall. by rewrite E. }
  assert (Hget : get_time line = Raise IndexError).
  { unfold get_time. by rewrite Hall. }
  split; [done|]. split; [done|]. intros t. by rewrite Hget.
Qed.



End Script.

(** ** The properties on the sample inputs *)

Import Sample.

Example get_time_line_a :
  get_time (L := RefLib.lib) line_a = Ok (mkdt 63713433600000000 0).
Proof. vm_compute. reflexivity. Qed.

Example process_line_a :
  process_line (L := RefLib.lib) line_a =
  Ok ("A - - [31/12/2019:16:00:00 -0800] foo" +:+ nl).
Proof. vm_compute. reflexivity. Qed.

(** Both timestamps of a syslog-style line are rewritten, the one in
    brackets with the month as a number. *)
Example process_line_c :
  process_line (L := RefLib.lib) line_c =
  Ok ("Jul 04 02:50:25 host - - [04/07/2021:02:50:25 -0700] baz" +:+ nl).
Proof. vm_compute. reflexivity. Qed.

(** The one-pass rewrite on a line that holds both patterns. *)
Example rewrite_on_original_both :
  rewrite_on_original "- - [T]" "P" "Nov 28 11:50:25 host - - [28/Nov/2016:11:50:25 -0800] x"
  = "P host - - [T] x".
Proof. vm_compute. reflexivity. Qed.

Example main_three_matches :
  main (L := RefLib.lib) (options_for "access.log" "foo|ba") access_log =
  ([EvOpen "access.log";
    echo ("A - - [31/12/2019:16:00:00 -0800] foo" +:+ nl);
    echo ("B - - [31/12/2019:16:00:10 -0800] bar" +:+ nl);
    echo ("Jul 04 02:50:25 host - - [04/07/2021:02:50:25 -0700] baz" +:+ nl)]
   ++ summary "foo|ba" 3 23777712500000, Ok 0).
Proof. vm_compute. reflexivity. Qed.

(** An average that is not a whole number of microseconds is rounded to
    the nearest one, ties to even. *)
Example average_rounds :
  get_average [1; 0; 0] = Ok 0 /\ get_average [1; 1; 0] = Ok 1
  /\ get_average [1; 0] = Ok 0 /\ get_average [3; 0] = Ok 2.
Proof. repeat split; vm_compute; reflexivity. Qed.


Lemma scenario_no_match :
  main (L := RefLib.lib) (options_for "access.log" "zzz") access_log =
    ([EvOpen "access.log";
      EvPrint [PStr ("Did not find the '" +:+ "zzz" +:+ "' you provided.")] nl],
     Ok (-1)).
Proof.
  eapply (no_match_diagnostic (L := RefLib.lib) "access.log" "zzz" access_log);
    [reflexivity | reflexivity | reflexivity].
Defined.



Lemma scenario_missing_file :
  exit_status (main (L := RefLib.lib) (options_for "missing.log" "foo") access_log).2 = 255.
Proof.
  apply (missing_file_diagnostic (L := RefLib.lib) "missing.log" "foo" access_log).
  reflexivity.
Defined.

(** C7, as stated, fails: the pattern does not compile, and creating the
    line source raises nothing; the call returns a generator that has not
    run, and it is the first [next] that raises. *)
Lemma invalid_pattern_source_is_created :
  re_compile (Lib := RefLib.lib) "(" = None
  /\ grep_file (L := RefLib.lib) "access.log" "(" access_log =
       ([], Ok (GenCreated "access.log" "("))
  /\ (grep_file (L := RefLib.lib) "access.log" "(" access_log).2 <> Raise ReError
  /\ next (L := RefLib.lib) (GenCreated "access.log" "(") access_log = ([], Raise ReError).
Proof.
  split; [reflexivity|]. split; [reflexivity|]. split; [discriminate|].
  reflexivity.
Qed.

Lemma scenario_invalid_pattern :
  next (L := RefLib.lib) (GenCreated "access.log" "(") access_log = ([], Raise ReError).
Proof.
  apply (invalid_pattern_raises_on_first_next (L := RefLib.lib) "access.log" "(" access_log).
  reflexivity.
Defined.


Lemma scenario_guard :
  exists average,
    get_average (diffs [mkdt 63713433600000000 0; mkdt 63713433610000000 0]) = Ok average.
Proof.
  apply (get_average_guarded (L := RefLib.lib) (options_for "access.log" "foo|bar")
           access_log).
  simpl. lia.
Defined.

(** C5.  On a line whose request holds a closing bracket, the first
    bracketed text is the timestamp, which starts an occurrence of the
    pattern and parses; [findall] returns instead the text that runs to the
    last closing bracket of the line, and [get_time] ends in the
    [ValueError] of [strptime] on it. *)
Theorem greedy_bracket_runs_to_last_bracket :
  let line := "127.0.0.1 - - [28/Nov/2016:11:50:25 -0800] GET /item[1] 200" +:+ nl in
  let first := "28/Nov/2016:11:50:25 -0800" in
  occurrence line "127.0.0.1 " first (" GET /item[1] 200" +:+ nl)
  /\ parse_timestamp (L := RefLib.lib) first = Ok (mkdt 63615930625000000 (-28800000000))
  /\ findall_bracket line = ["28/Nov/2016:11:50:25 -0800] GET /item[1"]
  /\ get_time (L := RefLib.lib) line = Raise ValueError.
Proof.
  intros line first. split; [|repeat split; vm_compute; reflexivity].
  split; [reflexivity|]. unfold newline_free. simpl. intuition discriminate.
Qed.

(** The same on a line with two timestamps: the first one stands at the
    start of the line, no occurrence there has a shorter text, and it
    parses; [get_time] hands both timestamps and what lies between them to
    [strptime]. *)
Example greedy_bracket_spans_two_timestamps :
  let line := "- - [01/Jan/2020:00:00:00 +0000] - - [02/Jan/2020:00:00:00 +0000]" in
  let first := "01/Jan/2020:00:00:00 +0000" in
  occurrence line "" first " - - [02/Jan/2020:00:00:00 +0000]"
  /\ (forall content' post',
        occurrence line "" content' post' ->
        (String.length first <= String.length content')%nat)
  /\ parse_timestamp (L := RefLib.lib) first = Ok (mkdt 63713433600000000 0)
  /\ findall_bracket line = ["01/Jan/2020:00:00:00 +0000] - - [02/Jan/2020:00:00:00 +0000"]
  /\ get_time (L := RefLib.lib) line = Raise ValueError.
Proof.
  intros line first. split; [|split; [|repeat split; vm_compute; reflexivity]].
  - split; [reflexivity|]. unfold newline_free. simpl. intuition discriminate.
  - intros content' post' [H _]. injection H as H.
    do 26 (destruct content' as [|? content']; [discriminate H|injection H as _ H]).
    simpl. lia.
Qed.

Example leftmost_longest_on_line_a :
  exists pre content post,
    first_occurrence line_a pre content post
    /\ get_time (L := RefLib.lib) line_a = parse_timestamp (L := RefLib.lib) content.
Proof.
  edestruct (leftmost_longest_bracket_is_parsed (L := RefLib.lib) line_a)
    as (pre & content & post & Hfirst & _ & Hget & _).
  - exists "A ", "01/Jan/2020:00:00:00 +0000", (" foo" +:+ nl).
    split; [reflexivity|]. unfold newline_free. simpl. intuition discriminate.
  - exists pre, content, post. split; [exact Hfirst | exact Hget].
Qed.

Lemma scenario_missing_bracket :
  get_time (L := RefLib.lib) line_d = Raise IndexError.
Proof.
  apply (missing_bracket_raises_index_error (L := RefLib.lib) line_d).
  rewrite contains_bracket_findall. vm_compute. intros H. by apply H.
Defined.


(** ** Further properties of the script *)

Section Runs.
Context {L : Lib}.

(** *** The generator *)

(** What [scan] skips and where it stops. *)
Lemma scan_spec patexp f :
  match scan patexp f with
  | Some (line, f') =>
      exists skipped,
        f = skipped ++ line :: f' /\ matching_lines patexp skipped = [] /\
        re_search patexp line = true
  | None => matching_lines patexp f = []
  end.
Proof.
  unfold matching_lines. induction f as [|l f IH]; simpl; [done|].
  destruct (re_search patexp l) eqn:Hl.
  - exists []. by rewrite Hl.
  - destruct (scan patexp f) as [[line f']|]; [|done].
    destruct IH as (skipped & -> & Hs & Hline).
    exists (l :: skipped). simpl. by rewrite Hl.
Qed.

Lemma matching_lines_app patexp l1 l2 :
  matching_lines patexp (l1 ++ l2) = matching_lines patexp l1 ++ matching_lines patexp l2.
Proof. unfold matching_lines. apply List.filter_app. Qed.

Lemma matching_lines_cons_true patexp l ls :
  re_search patexp l = true ->
  matching_lines patexp (l :: ls) = l :: matching_lines patexp ls.
Proof. unfold matching_lines. simpl. by intros ->. Qed.

(** X1.  The first [next] on a fresh generator, for a pattern that compiles
    and a file that is read, opens the file and yields the first selected
    line, leaving unread exactly the lines after it; lines it passed over
    are not selected.  When no line is selected it signals [StopIteration]
    and the generator is closed; a closed generator signals it again. *)
Theorem next_yields_first_selected_line (name pattern : string)
    (fs : gmap string node) (patexp : re_pattern) (lines : list string) :
  fs !! name = Some (File lines) ->
  re_compile pattern = Some patexp ->
  exists x,
    next (GenCreated name pattern) fs = ([EvOpen name], Ok x)
    /\ match x.1 with
       | Some line =>
           exists skipped rest,
             lines = skipped ++ line :: rest
             /\ matching_lines patexp skipped = []
             /\ re_search patexp line = true
             /\ x.2 = GenSuspended patexp rest
       | None =>
           matching_lines patexp lines = []
           /\ x.2 = GenClosed
           /\ next x.2 fs = ([], Ok (None, GenClosed))
       end.
Proof.
  intros Hf Hp. exists (resume patexp lines). split.
  - unfold next. rewrite Hp. simpl from_option.
    by rewrite run_lift_ok, (run_open_file _ lines).
  - unfold resume. pose proof (scan_spec patexp lines) as Hs.
    destruct (scan patexp lines) as [[line f']|]; simpl.
    + destruct Hs as (skipped & -> & Hsk & Hline). by exists skipped, f'.
    + done.
Qed.

Lemma drain_succ n g :
  drain (S n) g =
  (next g ≫= fun x =>
     match x.1 with
     | None => ret []
     | Some line => drain n x.2 ≫= fun rest => ret (line :: rest)
     end).
Proof. done. Qed.

Lemma drain_suspended patexp fs n :
  forall f, (length f < n)%nat ->
  drain n (GenSuspended patexp f) fs = ([], Ok (matching_lines patexp f)).
Proof.
  induction n as [|n IH]; intros f Hlen; [lia|].
  simpl drain. rewrite run_bind. simpl next. cbv beta iota.
  change (ret (resume patexp f) fs) with (([] : list event), Ok (resume patexp f)).
  cbn [fst snd app]. unfold resume.
  pose proof (scan_spec patexp f) as Hs.
  destruct (scan patexp f) as [[line f']|]; simpl.
  - destruct Hs as (skipped & -> & Hsk & Hline).
    rewrite run_bind, IH; cycle 1.
    { rewrite length_app in Hlen. simpl in Hlen. lia. }
    simpl. rewrite matching_lines_app, Hsk.
    by rewrite (matching_lines_cons_true _ _ _ Hline).
  - by rewrite Hs.
Qed.

(** X2.  Calling [next] until [StopIteration] yields exactly the lines of
    the file that the pattern selects, in file order, after one [open];
    one call more than the file has lines is always enough. *)
Theorem generator_yields_selected_lines (name pattern : string)
    (fs : gmap string node) (patexp : re_pattern) (lines : list string) (n : nat) :
  fs !! name = Some (File lines) ->
  re_compile pattern = Some patexp ->
  (length lines < n)%nat ->
  drain n (GenCreated name pattern) fs = ([EvOpen name], Ok (matching_lines patexp lines)).
Proof.
  intros Hf Hp Hlen. destruct n as [|n]; [lia|].
  rewrite drain_succ, run_bind.
  assert (Hnext : next (GenCreated name pattern) fs =
                  ([EvOpen name], Ok (resume patexp lines))).
  { unfold next. rewrite Hp. simpl from_option.
    by rewrite run_lift_ok, (run_open_file _ lines). }
  rewrite Hnext. cbn [fst snd]. unfold resume.
  pose proof (scan_spec patexp lines) as Hs.
  destruct (scan patexp lines) as [[line f']|]; simpl.
  - destruct Hs as (skipped & -> & Hsk & Hline).
    rewrite run_bind, drain_suspended; cycle 1.
    { rewrite length_app in Hlen. simpl in Hlen. lia. }
    simpl. rewrite matching_lines_app, Hsk.
    by rewrite (matching_lines_cons_true _ _ _ Hline).
  - by rewrite Hs.
Qed.

(** *** Runs that end early *)


(** X4.  A path that names a directory passes the existence test; the run
    then ends in the [OSError] of [open], with nothing printed and status
    1. *)
Theorem directory_path_raises (name pattern : string) (fs : gmap string node)
    (patexp : re_pattern) :
  fs !! name = Some Directory ->
  re_compile pattern = Some patexp ->
  main (mkopts (Some name) (Some pattern)) fs = ([], Raise OSError)
  /\ exit_status (main (mkopts (Some name) (Some pattern)) fs).2 = 1.
Proof.
  intros Hd Hp.
  assert (Hmain : main (mkopts (Some name) (Some pattern)) fs = ([], Raise OSError)).
  { rewrite main_unfold, Hd. rewrite bool_decide_eq_true_2 by eauto.
    by rewrite for_in_created_cases, Hp, Hd. }
  by rewrite Hmain.
Qed.

(** *** The loop sees the selected lines only *)

Lemma for_lines_for_each {S} patexp lines (body : string -> S -> M S) s fs :
  for_lines patexp lines body s fs = for_each (matching_lines patexp lines) body s fs.
Proof.
  unfold matching_lines. revert s.
  induction lines as [|l lines IH]; intros s; simpl; [done|].
  destruct (re_search patexp l); [|done]. simpl.
  rewrite !run_bind. destruct (body l s fs) as [tr [s'|e]]; [|done].
  by rewrite IH.
Qed.

Lemma for_each_fs_irrelevant ls st fs fs' :
  for_each ls loop_body st fs = for_each ls loop_body st fs'.
Proof.
  revert st. induction ls as [|l ls IH]; intros [count timeval]; simpl; [done|].
  rewrite !run_bind, !loop_body_run.
  destruct (get_time l) as [t|e]; [|done].
  destruct (process_line l) as [line|e]; [|done].
  by rewrite IH.
Qed.

Lemma report_fs_irrelevant pattern count timeval fs fs' :
  report pattern count timeval fs = report pattern count timeval fs'.
Proof.
  unfold report. destruct (0 <? count); [|done].
  destruct (1 <? count); [|done].
  rewrite !run_bind. by destruct (get_average (diffs timeval)).
Qed.

(** X5.  The run depends on the file through its selected lines only: two
    files whose selected lines are the same give the same output and the
    same result, whatever the other lines are. *)
Theorem unselected_lines_are_ignored (name pattern : string)
    (fs fs' : gmap string node) (patexp : re_pattern) (lines lines' : list string) :
  fs !! name = Some (File lines) ->
  fs' !! name = Some (File lines') ->
  re_compile pattern = Some patexp ->
  matching_lines patexp lines = matching_lines patexp lines' ->
  main (mkopts (Some name) (Some pattern)) fs
  = main (mkopts (Some name) (Some pattern)) fs'.
Proof.
  intros Hf Hf' Hp Hsame.
  rewrite !main_unfold, Hf, Hf'. rewrite !bool_decide_eq_true_2 by eauto.
  rewrite !for_in_created_cases, Hp, Hf, Hf'.
  rewrite !for_lines_for_each, Hsame.
  rewrite (for_each_fs_irrelevant _ _ fs fs').
  destruct (for_each _ _ _ fs') as [tr [[count timeval]|e]]; [|done].
  cbn [fst snd]. by rewrite (report_fs_irrelevant _ _ _ fs fs').
Qed.

(** *** A line without a parseable timestamp *)



(** *** What every run does *)



Lemma for_each_only_prints ls st fs :
  only_prints (for_each ls loop_body st fs).1.
Proof.
  revert st. induction ls as [|l ls IH]; intros [count timeval]; simpl.
  - constructor.
  - rewrite run_bind, loop_body_run.
    destruct (get_time l) as [t|e]; [|constructor].
    destruct (process_line l) as [line|e]; [|constructor].
    cbn [fst snd]. constructor; [done|]. apply IH.
Qed.

Lemma report_only_prints pattern count timeval fs :
  only_prints (report pattern count timeval fs).1.
Proof.
  unfold report. destruct (0 <? count).
  - destruct (1 <? count).
    + rewrite run_bind. destruct (get_average (diffs timeval)) as [avg|e].
      * rewrite run_lift_ok, !run_print. by repeat constructor.
      * rewrite run_lift_raise. constructor.
    + rewrite !run_print. by repeat constructor.
  - rewrite run_print. by repeat constructor.
Qed.

(** X8.  A run opens at most one file, the one named on the command line,
    and does so before it prints anything; everything else in its trace is
    a [print]. *)
Theorem run_opens_only_the_named_file (o : options) (fs : gmap string node) :
  only_prints (main o fs).1
  \/ exists name tr,
       opt_name o = Some name
       /\ (main o fs).1 = EvOpen name :: tr
       /\ only_prints tr.
Proof.
  destruct o as [[name|] [pattern|]];
    try (left; unfold main, process_args; cbn [opt_name opt_pattern];
         rewrite run_lift_raise; constructor).
  rewrite main_unfold. case_bool_decide; [|left; by repeat constructor].
  rewrite for_in_created_cases.
  destruct (re_compile pattern) as [patexp|]; [|left; constructor].
  destruct (fs !! name) as [[lines|]|]; [|left; constructor..].
  right. exists name. rewrite for_lines_for_each.
  pose proof (for_each_only_prints (matching_lines patexp lines) (0, []) fs) as Hloop.
  destruct (for_each _ _ _ fs) as [tr [[count timeval]|e]]; cbn [fst snd] in *.
  - eexists. split; [done|]. split; [done|].
    apply Forall_app. split; [done|]. apply report_only_prints.
  - by exists tr.
Qed.

End Runs.

(** ** Further properties of the average *)

Section Averages.

Lemma divide_and_round_cases a b :
  0 < b ->
  let q := a / b in
  let r := a mod b in
  a = b * q + r /\ 0 <= r < b /\
  ((divide_and_round a b = q /\ 2 * r <= b /\ (2 * r = b -> q mod 2 = 0))
   \/ (divide_and_round a b = q + 1 /\ b <= 2 * r /\ (2 * r = b -> q mod 2 = 1))).
Proof.
  intros Hb q r.
  pose proof (Z.div_mod a b ltac:(lia)) as Hdm.
  pose proof (Z.mod_pos_bound a b Hb) as Hr.
  pose proof (Z.mod_pos_bound q 2 ltac:(lia)) as Hq2.
  split; [done|]. split; [done|].
  unfold divide_and_round. fold q r.
  destruct (Z.ltb_spec 0 b) as [_|]; [|lia].
  destruct (Z.ltb_spec b (2 * r)) as [Hgt|Hle]; simpl.
  - right. split; [done|]. split; lia.
  - destruct (Z.eqb_spec (2 * r) b) as [Heq|Hne]; simpl.
    + destruct (Z.eqb_spec (q mod 2) 1) as [Hodd|Heven].
      * right. split; [done|]. split; [lia|done].
      * left. split; [done|]. split; [lia|]. intros _. lia.
    + left. split; [done|]. split; lia.
Qed.

(** The rounded quotient is an integer nearest to the exact one, and the
    even one of the two nearest at a tie. *)
Lemma divide_and_round_nearest a b :
  0 < b ->
  2 * Z.abs (a - b * divide_and_round a b) <= b
  /\ (2 * Z.abs (a - b * divide_and_round a b) = b -> divide_and_round a b mod 2 = 0).
Proof.
  intros Hb.
  destruct (divide_and_round_cases a b Hb) as (Hdm & Hr & [(-> & H1 & H2)|(-> & H1 & H2)]).
  - split; [lia|]. intros Htie. apply H2. lia.
  - split; [lia|]. intros Htie.
    assert (Hodd : (a / b) mod 2 = 1) by (apply H2; lia).
    rewrite Z.add_mod, Hodd by lia. done.
Qed.

Lemma total_bounds lst lo hi :
  (forall x, In x lst -> lo <= x <= hi) ->
  Z.of_nat (length lst) * lo <= total lst <= Z.of_nat (length lst) * hi.
Proof.
  unfold total. induction lst as [|x lst IH]; intros Hall; [simpl; lia|].
  assert (Hx : lo <= x <= hi) by (apply Hall; by left).
  assert (Hrest : forall y, In y lst -> lo <= y <= hi) by (intros y Hy; apply Hall; by right).
  specialize (IH Hrest). simpl fold_right. simpl length. lia.
Qed.


(** X10.  The average lies between the smallest and the largest of the
    durations: rounding never takes it out of the range of its inputs. *)
Theorem get_average_within_range (lst : list timedelta) (average lo hi : Z) :
  get_average lst = Ok average ->
  (forall x, In x lst -> lo <= x <= hi) ->
  lo <= average <= hi.
Proof.
  intros Havg Hall. destruct lst as [|x xs]; [done|].
  set (n := Z.of_nat (length (x :: xs))).
  set (sum := total (x :: xs)).
  assert (Hsum : n * lo <= sum <= n * hi) by exact (total_bounds _ _ _ Hall).
  assert (Hn : 0 < n) by (unfold n; simpl length; lia).
  assert (Heq : average = divide_and_round sum n).
  { rewrite get_average_cons in Havg. injection Havg as Havg. symmetry. exact Havg. }
  destruct (divide_and_round_nearest sum n Hn) as [Hnear _].
  rewrite <- Heq in Hnear. clearbody n sum. clear Heq Havg Hall.
  split.
  - destruct (Z.le_gt_cases lo average) as [|Hlt]; [done|].
    assert (n * average <= n * (lo - 1)) by (apply Z.mul_le_mono_nonneg_l; lia).
    lia.
  - destruct (Z.le_gt_cases average hi) as [|Hgt]; [done|].
    assert (n * (hi + 1) <= n * average) by (apply Z.mul_le_mono_nonneg_l; lia).
    lia.
Qed.

Lemma last_default (d d' : datetime) ts :
  ts <> [] -> List.last ts d = List.last ts d'.
Proof.
  induction ts as [|t1 [|t2 ts] IH]; [done|done|].
  intros _. change (List.last (t2 :: ts) d = List.last (t2 :: ts) d').
  by apply IH.
Qed.

Lemma last_cons_default (t0 t1 : datetime) ts :
  List.last (t1 :: ts) t0 = List.last ts t1.
Proof.
  destruct ts as [|t2 ts]; [done|].
  change (List.last (t2 :: ts) t0 = List.last (t2 :: ts) t1).
  by apply last_default.
Qed.

(** The intervals between consecutive timestamps add up to the span from
    the first to the last. *)
Lemma total_diffs t0 ts :
  total (diffs (t0 :: ts)) = instant (List.last ts t0) - instant t0.
Proof.
  unfold total. revert t0. induction ts as [|t1 ts IH]; intros t0.
  - simpl. lia.
  - rewrite diffs_cons. simpl fold_right. rewrite IH, datetime_sub_instant.
    rewrite last_cons_default. lia.
Qed.

(** X11.  With two timestamps or more, the average of the intervals is the
    span from the first timestamp to the last, divided by the number of
    intervals: the timestamps in between do not change it. *)
Theorem average_is_span_over_intervals (first : datetime) (others : list datetime) :
  others <> [] ->
  get_average (diffs (first :: others))
  = Ok (divide_and_round (instant (List.last others first) - instant first)
          (Z.of_nat (length others))).
Proof.
  intros Hne.
  pose proof (diffs_length (first :: others)) as Hlen.
  destruct (diffs (first :: others)) as [|x xs] eqn:E.
  - destruct others; [done|]. simpl in Hlen. lia.
  - rewrite get_average_cons, <- E. fold (total (diffs (first :: others))).
    rewrite total_diffs, diffs_length. do 2 f_equal. simpl length. lia.
Qed.

End Averages.

(** ** Further properties of extraction and rewriting *)

Section Extraction.
Context {L : Lib}.

#[local] Arguments String.append !s1 s2 : simpl nomatch.

Lemma newline_free_nil : newline_free "".
Proof. by intros []. Qed.

Lemma newline_free_app a b :
  newline_free (a +:+ b) <-> newline_free a /\ newline_free b.
Proof.
  induction a as [|c a IH]; simpl.
  - pose proof newline_free_nil. tauto.
  - rewrite !newline_free_cons, IH. tauto.
Qed.

(** What the first occurrence tells about the matcher: the pattern matches
    there, up to the closing bracket of the occurrence, and nowhere
    before. *)
Lemma first_occurrence_match line pre content post :
  first_occurrence line pre content post ->
  match_items (body bracket_re) ("- - [" +:+ content +:+ "]" +:+ post)
  = Some (String.length content + 6)%nat
  /\ forall p1 p2, pre = p1 +:+ p2 -> p2 <> "" ->
       match_items (body bracket_re) (p2 +:+ "- - [" +:+ content +:+ "]" +:+ post) = None.
Proof.
  intros [[Hline Hfree] Hfirst]. split.
  - destruct (match_items (body bracket_re) _) as [n|] eqn:Hm.
    + destruct (match_bracket_some _ _ Hm)
        as (content1 & post1 & Heq & Hfree1 & -> & Hmax).
      assert (H1 : (String.length content <= String.length content1)%nat)
        by (by apply (Hmax content post)).
      assert (H2 : (String.length content1 <= String.length content)%nat).
      { apply (Hfirst pre content1 post1); [|done].
        split; [|done]. by rewrite Hline, Heq. }
      f_equal. lia.
    + by destruct (match_bracket_none _ _ _ Hm eq_refl).
  - intros p1 p2 -> Hp2.
    destruct (match_items (body bracket_re) _) as [n|] eqn:Hm; [|done].
    destruct (match_bracket_some _ _ Hm) as (c' & post' & Heq & Hfree' & _ & _).
    assert (Hocc : occurrence line p1 c' post').
    { split; [|done]. by rewrite Hline, append_assoc_s, Heq. }
    destruct (Hfirst _ _ _ Hocc) as [Hle _].
    rewrite length_append_s in Hle.
    destruct p2; [done|]. simpl in Hle. lia.
Qed.

(** *** Scanning past a match *)

Lemma finditer_from_skip_app r pos u v :
  finditer_from r pos (String.length u) (u +:+ v)
  = finditer_from r (pos + String.length u) 0 v.
Proof.
  revert pos. induction u as [|c u IH]; intros pos; simpl.
  - by rewrite Nat.add_0_r.
  - rewrite IH. f_equal. lia.
Qed.

Lemma finditer_from_cons_try r pos c t :
  finditer_from r pos 0 (String c t) =
  match match_at r pos (String c t) with
  | Some n => (pos, n) :: finditer_from r (S pos) (pred n) t
  | None => finditer_from r (S pos) 0 t
  end.
Proof. done. Qed.

(** Up to the first match the scan finds nothing; it records the match and
    goes on behind it. *)
Lemma finditer_bracket_split pre rest n c t pos :
  (forall p1 p2, pre = p1 +:+ p2 -> p2 <> "" ->
     match_items (body bracket_re) (p2 +:+ rest) = None) ->
  match_items (body bracket_re) rest = Some n ->
  rest = String c t ->
  finditer_from bracket_re pos 0 (pre +:+ rest)
  = ((pos + String.length pre)%nat, n)
    :: finditer_from bracket_re (S (pos + String.length pre)) (pred n) t.
Proof.
  intros Hbefore Hn ->. revert pos Hbefore.
  induction pre as [|a pre IH]; intros pos Hbefore.
  - simpl "+:+". rewrite finditer_from_cons_try, match_at_bracket, Hn.
    simpl String.length. by rewrite Nat.add_0_r.
  - simpl "+:+". rewrite finditer_from_cons_try, match_at_bracket.
    pose proof (Hbefore "" (String a pre) eq_refl ltac:(done)) as Hhere.
    simpl "+:+" in Hhere. rewrite Hhere.
    rewrite IH.
    + simpl String.length.
      by replace (pos + S (String.length pre))%nat
        with (S pos + String.length pre)%nat by lia.
    + intros p1 p2 -> Hp2. by apply (Hbefore (String a p1) p2).
Qed.

Lemma finditer_bracket_none s pos :
  ~ contains_bracket s -> finditer_from bracket_re pos 0 s = [].
Proof.
  intros Hno.
  destruct (finditer_first bracket_re s pos eq_refl)
    as [[Hnil _]|(pre & rest & n & tl & -> & Hn & _ & _)]; [done|].
  destruct (match_bracket_some _ _ Hn) as (content & post & -> & Hfree & _ & _).
  destruct Hno. by exists pre, content, post.
Qed.





(** X12.  The outcomes of [get_time] on any line: [IndexError] exactly when the
    line has no occurrence of the bracketed pattern; otherwise the text
    between the brackets of the first occurrence goes to [strptime], and
    the call returns its date or raises [ValueError] with it. *)
Theorem get_time_outcomes (line : string) :
  (get_time line = Raise IndexError <-> ~ contains_bracket line)
  /\ (get_time line = Raise ValueError <->
      exists pre content post,
        first_occurrence line pre content post
        /\ strptime content "%d/%b/%Y:%H:%M:%S %z" = None)
  /\ (forall t, get_time line = Ok t <->
      exists pre content post,
        first_occurrence line pre content post
        /\ strptime content "%d/%b/%Y:%H:%M:%S %z" = Some t)
  /\ (forall e, get_time line = Raise e -> e = IndexError \/ e = ValueError).
Proof.
  unfold get_time.
  destruct (findall_bracket_cases line)
    as [[Hnil Hno]|(pre & content & post & tl & Hfirst & Hfind)].
  - rewrite Hnil.
    assert (Hnone : forall P : string -> Prop,
      ~ exists pre content post, first_occurrence line pre content post /\ P content).
    { intros P (pre & content & post & [Hocc _] & _).
      apply Hno. by exists pre, content, post. }
    split; [|split; [|split]].
    + by split.
    + split; [done|]. intros H. by destruct (Hnone _ H).
    + intros t. split; [done|]. intros H. by destruct (Hnone _ H).
    + intros e [= <-]. by left.
  - rewrite Hfind.
    assert (Hyes : contains_bracket line).
    { destruct Hfirst as [Hocc _]. by exists pre, content, post. }
    assert (Hsame : forall P : string -> Prop,
      (exists pre' content' post',
         first_occurrence line pre' content' post' /\ P content') <-> P content).
    { intros P. split.
      - intros (pre' & content' & post' & Hfirst' & HP).
        by destruct (first_occurrence_unique _ _ _ _ _ _ _ Hfirst Hfirst')
          as (_ & -> & _).
      - intros HP. by exists pre, content, post. }
    split; [|split; [|split]].
    + destruct (strptime content _); (split; [done|]); intros H; by destruct H.
    + rewrite (Hsame (fun c => strptime c "%d/%b/%Y:%H:%M:%S %z" = None)).
      by destruct (strptime content _).
    + intros t.
      rewrite (Hsame (fun c => strptime c "%d/%b/%Y:%H:%M:%S %z" = Some t)).
      destruct (strptime content _); split; congruence.
    + intros e. destruct (strptime content _); [done|]. intros [= <-]. by right.
Qed.

(** *** Lines as a file yields them *)

(** Before the last character of a line of a file there is no newline. *)
Lemma proper_prefix_newline_free body line a b :
  newline_free body -> line = body \/ line = body +:+ nl ->
  line = a +:+ b -> b <> "" -> newline_free a.
Proof.
  intros Hfree [->| ->] Hline Hb.
  - rewrite Hline in Hfree. by apply newline_free_app in Hfree as [? _].
  - destruct (append_split body nl a b Hline) as (m & -> & _).
    + apply (f_equal String.length) in Hline.
      rewrite !length_append_s in Hline. destruct b; [done|].
      simpl in Hline. lia.
    + by apply newline_free_app in Hfree as [? _].
Qed.

(** The greedy group of the first occurrence runs to the last closing
    bracket of the line, so nothing behind it is an occurrence. *)
Lemma single_line_post body line pre content post :
  newline_free body -> line = body \/ line = body +:+ nl ->
  first_occurrence line pre content post -> ~ contains_bracket post.
Proof.
  intros Hfree Hline [[Heq Hc] Hfirst] (pre2 & c2 & post2 & [-> Hc2]).
  assert (Hpre2 : newline_free (pre +:+ "- - [" +:+ content +:+ "]" +:+ pre2)).
  { apply (proper_prefix_newline_free body line _
             ("- - [" +:+ c2 +:+ "]" +:+ post2) Hfree Hline); [|done].
    rewrite Heq. by rewrite !append_assoc_s. }
  apply newline_free_app in Hpre2 as [_ Hpre2].
  apply (newline_free_app "- - [") in Hpre2 as [_ Hpre2].
  apply newline_free_app in Hpre2 as [_ Hpre2].
  apply (newline_free_app "]") in Hpre2 as [_ Hpre2].
  assert (Hocc : occurrence line pre
                   (content +:+ "]" +:+ pre2 +:+ "- - [" +:+ c2) post2).
  { split.
    - rewrite Heq. by rewrite !append_assoc_s.
    - apply newline_free_app. split; [done|].
      apply (newline_free_app "]"). split; [by intros [|[]]|].
      apply newline_free_app. split; [done|].
      apply (newline_free_app "- - ["). split; [|done].
      intros H. simpl in H. unfold newline in H.
      repeat (destruct H as [H|H]; [discriminate H|]). done. }
  destruct (Hfirst _ _ _ Hocc) as [_ Hle]. specialize (Hle eq_refl).
  rewrite length_append_s in Hle. simpl in Hle. lia.
Qed.

Lemma finditer_single pre content post line :
  first_occurrence line pre content post -> ~ contains_bracket post ->
  finditer bracket_re line = [(String.length pre, (String.length content + 6)%nat)].
Proof.
  intros Hfirst Hno.
  destruct (first_occurrence_match _ _ _ _ Hfirst) as [Hn Hbefore].
  destruct Hfirst as [[-> _] _]. unfold finditer.
  rewrite (finditer_bracket_split pre _ _ "-"
             ((" - [" +:+ (content +:+ "]")) +:+ post) 0 Hbefore Hn).
  - replace (Init.Nat.pred (String.length content + 6))
      with (String.length (" - [" +:+ (content +:+ "]"))).
    + by rewrite finditer_from_skip_app, finditer_bracket_none.
    + rewrite !length_append_s. simpl. lia.
  - change ("- - [" +:+ content +:+ "]" +:+ post)
      with (String "-" (" - [" +:+ (content +:+ ("]" +:+ post)))).
    by rewrite <- (append_assoc_s content "]" post),
               <- (append_assoc_s " - [" (content +:+ "]") post).
Qed.

(** X13.  On a line of a file, which holds no newline before its end, the
    pattern of [get_time] is found at most once: [findall] returns at most
    one text, that of the first occurrence, and nothing behind that
    occurrence is one. *)
Theorem file_line_has_at_most_one_timestamp (body line : string) :
  newline_free body -> line = body \/ line = body +:+ nl ->
  (length (findall_bracket line) <= 1)%nat
  /\ forall pre content post,
       first_occurrence line pre content post ->
       findall_bracket line = [content] /\ ~ contains_bracket post.
Proof.
  intros Hfree Hline.
  assert (Hall : forall pre content post,
            first_occurrence line pre content post ->
            findall_bracket line = [content] /\ ~ contains_bracket post).
  { intros pre content post Hfirst.
    pose proof (single_line_post _ _ _ _ _ Hfree Hline Hfirst) as Hno.
    split; [|done].
    destruct (findall_bracket_cases line)
      as [[_ Hnone]|(pre' & content' & post' & tl & Hfirst' & Hfind)].
    - destruct Hnone. destruct Hfirst as [Hocc _]. by exists pre, content, post.
    - destruct (first_occurrence_unique _ _ _ _ _ _ _ Hfirst Hfirst')
        as (_ & -> & _).
      assert (Hlen : length (findall_bracket line) = 1%nat).
      { unfold findall_bracket.
        by rewrite length_map, (finditer_single _ _ _ _ Hfirst Hno). }
      rewrite Hfind in Hlen. rewrite Hfind. by destruct tl. }
  split; [|done].
  destruct (findall_bracket_cases line)
    as [[-> _]|(pre & content & post & tl & Hfirst & _)]; [simpl; lia|].
  destruct (Hall _ _ _ Hfirst) as [-> _]. simpl. lia.
Qed.

(** *** The prefix pattern before the timestamp *)





(** *** What the anchored pattern matches *)









End Extraction.

(** ** The further properties on the sample inputs *)

Lemma scenario_first_next :
  exists x,
    next (L := RefLib.lib) (GenCreated "access.log" "bar") access_log
    = ([EvOpen "access.log"], Ok x).
Proof.
  edestruct (next_yields_first_selected_line (L := RefLib.lib)
               "access.log" "bar" access_log) as (x & Hx & _);
    [reflexivity | reflexivity |].
  by exists x.
Defined.

Lemma scenario_drain :
  exists selected,
    drain (L := RefLib.lib) 4 (GenCreated "access.log" "foo|bar") access_log
    = ([EvOpen "access.log"], Ok selected).
Proof.
  eexists.
  eapply (generator_yields_selected_lines (L := RefLib.lib)
            "access.log" "foo|bar" access_log _ [line_a; line_b; line_c] 4);
    [reflexivity | reflexivity | simpl; lia].
Defined.


Lemma scenario_directory :
  main (L := RefLib.lib) (mkopts (Some "logs") (Some "foo")) Sample2.with_directory
  = ([], Raise OSError).
Proof.
  eapply proj1.
  eapply (directory_path_raises (L := RefLib.lib) "logs" "foo" Sample2.with_directory);
    reflexivity.
Defined.

Lemma scenario_padded :
  main (L := RefLib.lib) (mkopts (Some "access.log") (Some "foo|bar")) access_log
  = main (L := RefLib.lib) (mkopts (Some "access.log") (Some "foo|bar"))
      Sample2.padded_log.
Proof.
  eapply (unselected_lines_are_ignored (L := RefLib.lib) "access.log" "foo|bar"
            access_log Sample2.padded_log _ [line_a; line_b; line_c]
            [line_d; line_a; line_b; line_d; line_c]);
    [reflexivity | reflexivity | reflexivity | vm_compute; reflexivity].
Defined.



Lemma scenario_within_range :
  exists average, get_average [1; 2] = Ok average /\ 1 <= average <= 2.
Proof.
  exists 2. split; [reflexivity|].
  apply (get_average_within_range [1; 2] 2 1 2); [reflexivity|].
  intros x [<-|[<-|[]]]; lia.
Defined.

Lemma scenario_span :
  get_average (diffs [mkdt 0 0; mkdt 10 0; mkdt 30 0]) = Ok 15.
Proof.
  exact (average_is_span_over_intervals (mkdt 0 0) [mkdt 10 0; mkdt 30 0]
           ltac:(discriminate)).
Defined.

Lemma scenario_one_timestamp : (length (findall_bracket line_a) <= 1)%nat.
Proof.
  refine (proj1 (file_line_has_at_most_one_timestamp
                   "A - - [01/Jan/2020:00:00:00 +0000] foo" line_a _
                   (or_intror eq_refl))).
  intros H. simpl in H. unfold newline in H.
  repeat (destruct H as [H|H]; [discriminate H|]). exact H.
Defined.


